(** * The Btor dialect: operation verifiers, folding and custom syntax

    A shallow embedding of [lib/Dialect/Btor/IR/BtorOps.cpp].  The file
    follows the source top to bottom: the types the operations range over,
    the operation record with its operand and result accessors, the
    diagnostics, the per-kind verifiers, [ConstantOp::fold], and the custom
    printers and parsers of [IteOp] and of the overflow operations.

    Conventions.
    - Widths are [unsigned] in the source ([unsigned resultLength = ...
      .getWidth()] in [verifyCmpOp] and [verifyAssertNotOp]; the builtin
      [getIntOrFloatBitWidth()] returns [unsigned] too).  They are [N] here,
      and the one place where the source adds two of them wraps modulo
      [2^32].
    - Shape entries are [int64_t]: they are [Z], and [shape - 1] is reduced
      into the 64-bit two's-complement range.
    - A failed [assert], a [cast] to the wrong type, an index past the end
      and a member call on a null type handle all end the run; they are the
      [Abort] outcome, which is neither [success()] nor [failure()].
    - Diagnostics keep their arguments apart, as [mlir::Diagnostic] does;
      locations and attached notes are left out. *)

From Stdlib Require Import ZArith NArith List String Ascii Lia Bool.
From Stdlib Require Import DecimalString.
Import ListNotations.

Local Open Scope string_scope.
Local Open Scope N_scope.

(* ================================================================= *)
(** ** Machine integers *)

Definition UINT_BITS : N := 32.
Definition UINT_MODULUS : N := 2 ^ UINT_BITS.

(** [a + b] on two [unsigned] values. *)
Definition uadd (a b : N) : N := (a + b) mod UINT_MODULUS.

Definition INT64_MIN : Z := (- 2 ^ 63)%Z.
Definition INT64_MAX : Z := (2 ^ 63 - 1)%Z.

(** Two's-complement reduction of an integer into the [int64_t] range.
    It is the identity on that range, so it only matters for
    [INT64_MIN - 1], where C++ leaves the subtraction undefined. *)
Definition wrap64 (z : Z) : Z :=
  ((z - INT64_MIN) mod 2 ^ 64 + INT64_MIN)%Z.

(** [a - b] on two [int64_t] values. *)
Definition sub64 (a b : Z) : Z := wrap64 (a - b).

(* ================================================================= *)
(** ** Outcomes of a run *)

Inductive Outcome (A : Type) : Type :=
| Ok (a : A)
| Abort.
Arguments Ok {A} a.
Arguments Abort {A}.

Definition bind {A B : Type} (m : Outcome A) (k : A -> Outcome B) : Outcome B :=
  match m with
  | Ok a => k a
  | Abort => Abort
  end.

Declare Scope outcome_scope.
Delimit Scope outcome_scope with outcome.
Bind Scope outcome_scope with Outcome.
Notation "x <- m ;; k" := (bind m (fun x => k))
  (at level 61, m at next level, right associativity) : outcome_scope.
Local Open Scope outcome_scope.

(* ================================================================= *)
(** ** Types *)

Module btor.

(** Modelled from the spec: the dialect's two types are declared in
    [BtorTypes.h], which is not among the sources.  ``BitVecType(width)'' is
    a bit-vector of [getWidth] bits. *)
Record BitVecType : Type := bv { getWidth : N }.

(** Modelled from the spec: ``ArrayType(indexWidth, elementWidth)''.  The
    source reads the index type with [getShape()] and the element type with
    [getElement()], and takes a [getWidth()] of both: they are bit-vector
    types. *)
Record ArrayType : Type := array { getShape : BitVecType; getElement : BitVecType }.

End btor.

(** [mlir::Type], restricted to the kinds the dialect's operations meet:
    the two dialect types, the builtin integers, and the builtin vector and
    memref types used by the two alternate array encodings. *)
Inductive Ty : Type :=
| BitVecTy (t : btor.BitVecType)
| ArrayTy (t : btor.ArrayType)
| IntegerTy (width : N)
| VectorTy (shape : list Z) (elementType : Ty)
| MemRefTy (shape : list Z) (elementType : Ty).

(** The view of a builtin shaped type ([VectorType], [MemRefType]). *)
Record ShapedType : Type := shaped { getShape : list Z; getElementType : Ty }.

Definition bvN (w : N) : Ty := BitVecTy (btor.bv w).

Definition BitVecType_eq_dec (a b : btor.BitVecType) : {a = b} + {a <> b}.
Proof. decide equality; apply N.eq_dec. Defined.

Definition ArrayType_eq_dec (a b : btor.ArrayType) : {a = b} + {a <> b}.
Proof. decide equality; apply BitVecType_eq_dec. Defined.

(** Types are uniqued in the context, so handle equality is structural. *)
Definition Ty_eq_dec (a b : Ty) : {a = b} + {a <> b}.
Proof.
  decide equality;
    try apply BitVecType_eq_dec; try apply ArrayType_eq_dec;
    try apply N.eq_dec; apply (list_eq_dec Z.eq_dec).
Defined.

(** [getBVType]: [opType.dyn_cast<btor::BitVecType>()], null when [opType]
    is of another kind. *)
Definition getBVType (opType : Ty) : option btor.BitVecType :=
  match opType with
  | BitVecTy t => Some t
  | _ => None
  end.

(** [.getWidth()] on the handle [getBVType] returned. *)
Definition getWidth (t : option btor.BitVecType) : Outcome N :=
  match t with
  | Some t => Ok (btor.getWidth t)
  | None => Abort
  end.

(** [mlir::getElementTypeOrSelf]: the element type of a shaped type, the
    type itself otherwise. *)
Definition getElementTypeOrSelf (t : Ty) : Ty :=
  match t with
  | VectorTy _ e | MemRefTy _ e => e
  | _ => t
  end.

(** [Type::getIntOrFloatBitWidth]: asserts the type is a builtin integer
    (or float, of which the dialect has none). *)
Definition getIntOrFloatBitWidth (t : Ty) : Outcome N :=
  match t with
  | IntegerTy w => Ok w
  | _ => Abort
  end.

Definition cast_ArrayType (t : Ty) : Outcome btor.ArrayType :=
  match t with
  | ArrayTy a => Ok a
  | _ => Abort
  end.

Definition cast_VectorType (t : Ty) : Outcome ShapedType :=
  match t with
  | VectorTy s e => Ok (shaped s e)
  | _ => Abort
  end.

Definition cast_MemRefType (t : Ty) : Outcome ShapedType :=
  match t with
  | MemRefTy s e => Ok (shaped s e)
  | _ => Abort
  end.

(** The [ValType] template parameter of [verifySliceOp], [verifyExtOp] and
    [verifyConcatOp]: a type kind one can [cast] to and ask its width. *)
Class ValType (V : Type) : Type := {
  cast : Ty -> Outcome V;
  ValType_getWidth : V -> N
}.

#[global] Instance BitVecType_ValType : ValType btor.BitVecType := {
  cast t := match t with BitVecTy b => Ok b | _ => Abort end;
  ValType_getWidth := btor.getWidth
}.

(* ================================================================= *)
(** ** Values, attributes, operations *)

(** An SSA value: the name it prints under and its type. *)
Record Value : Type := value { Value_name : string; getType : Ty }.

Inductive Attribute : Type :=
| IntegerAttr (type : Ty) (val : Z)
| StringAttr (s : string)
| UnitAttr.

Definition NamedAttrList : Type := list (string * Attribute).

(** [mlir::Operation]: the kind (as its registered name), the operands in
    order, the result types in order, and the attribute dictionary. *)
Record Operation : Type := operation {
  getName : string;
  getOperands : list Value;
  getResultTypes : list Ty;
  getAttrs : NamedAttrList
}.

(** [op->getOperand(i)]; out of range is an assertion failure. *)
Definition getOperand (op : Operation) (i : nat) : Outcome Value :=
  match nth_error (getOperands op) i with
  | Some v => Ok v
  | None => Abort
  end.

(** [op->getResult(i).getType()]. *)
Definition getResultType (op : Operation) (i : nat) : Outcome Ty :=
  match nth_error (getResultTypes op) i with
  | Some t => Ok t
  | None => Abort
  end.

Fixpoint lookupAttr (name : string) (attrs : NamedAttrList) : option Attribute :=
  match attrs with
  | [] => None
  | (k, a) :: rest => if String.eqb k name then Some a else lookupAttr name rest
  end.

(** [op->getAttr(name)] followed by the accessor's cast: a missing attribute
    is a null handle. *)
Definition getAttr (op : Operation) (name : string) : Outcome Attribute :=
  match lookupAttr name (getAttrs op) with
  | Some a => Ok a
  | None => Abort
  end.

(** Modelled from the spec: the named operand and result accessors come
    with the generated operation classes ([BtorOps.cpp.inc]).  Positions
    follow the spec's operand lists -- ``SliceOp(in, bounds)'',
    ``ConcatOp(lhs, rhs)'', ``AssertNotOp(arg)'', ``ConstraintOp(constraint)'',
    ``InitArrayOp(initValue)'', ``ConstantOp(literal, width)'' -- which is
    also the order in which the custom parsers and printers of the source
    take the operands; [result] and [getType] are the single result. *)
Module Accessors.
Definition result (op : Operation) : Outcome Ty := getResultType op 0.
Definition getType (op : Operation) : Outcome Ty := getResultType op 0.
Definition _in (op : Operation) : Outcome Value := getOperand op 0.
Definition lhs (op : Operation) : Outcome Value := getOperand op 0.
Definition rhs (op : Operation) : Outcome Value := getOperand op 1.
Definition arg (op : Operation) : Outcome Value := getOperand op 0.
Definition constraint (op : Operation) : Outcome Value := getOperand op 0.
Definition init (op : Operation) : Outcome Value := getOperand op 0.
Definition value (op : Operation) : Outcome Attribute := getAttr op "value".
End Accessors.

(* ================================================================= *)
(** ** Diagnostics *)

(** [mlir::DiagnosticArgument]: what [<<] appends to a diagnostic. *)
Inductive DiagnosticArgument : Type :=
| DString (s : string)
| DType (t : Ty)
| DInteger (i : Z)
| DUnsigned (n : N).

Definition Diagnostic : Type := list DiagnosticArgument.

(** [mlir::LogicalResult]; a failure carries the diagnostic the verifier
    emitted on its way out. *)
Inductive LogicalResult : Type :=
| success
| failure (d : Diagnostic).

(** [op.emitError(message)]. *)
Definition emitError (op : Operation) (message : string) : Diagnostic :=
  [DString message].

(** [op.emitOpError()]: the diagnostic opens with the quoted operation name. *)
Definition emitOpError (op : Operation) : Diagnostic :=
  [DString "'"; DString (getName op); DString "' op "].

Definition succeeded (r : LogicalResult) : bool :=
  match r with
  | success => true
  | failure _ => false
  end.

(** Decimal rendering of an [unsigned] streamed into a diagnostic. *)
Definition utostr (n : N) : string := NilZero.string_of_uint (N.to_uint n).

Definition contains (needle hay : string) : bool :=
  match String.index 0 needle hay with
  | Some _ => true
  | None => false
  end.

(** The bit widths a type is built from. *)
Fixpoint widthsOf (t : Ty) : list N :=
  match t with
  | BitVecTy b => [btor.getWidth b]
  | ArrayTy a => [btor.getWidth (btor.getShape a); btor.getWidth (btor.getElement a)]
  | IntegerTy w => [w]
  | VectorTy _ e | MemRefTy _ e => widthsOf e
  end.

(** A diagnostic names the width [w] when one of its arguments is the number
    [w], a type carrying that width, or text that spells [w] in decimal. *)
Definition argNames (w : N) (a : DiagnosticArgument) : bool :=
  match a with
  | DString s => contains (utostr w) s
  | DType t => existsb (N.eqb w) (widthsOf t)
  | DInteger i => (i =? Z.of_N w)%Z
  | DUnsigned n => n =? w
  end.

Definition names (w : N) (d : Diagnostic) : bool := existsb (argNames w) d.

(* ================================================================= *)
(** ** SliceOp, extension and concatenation verifiers *)

Section WidthVerifiers.
Context {V : Type} `{ValType V}.

Definition verifySliceOp (op : Operation) : Outcome LogicalResult :=
  i <- Accessors._in op ;;
  let srcType := getElementTypeOrSelf (getType i) in
  r <- Accessors.getType op ;;
  let dstType := getElementTypeOrSelf r in
  s <- cast srcType ;;
  d <- cast dstType ;;
  if ValType_getWidth s <? ValType_getWidth d then
    Ok (failure (emitError op "result type " ++
                 [DType dstType;
                  DString " must be smaller or equal to the operand type ";
                  DType srcType])%list)
  else Ok success.

Definition verifyExtOp (op : Operation) : Outcome LogicalResult :=
  i <- Accessors._in op ;;
  let srcType := getElementTypeOrSelf (getType i) in
  r <- Accessors.getType op ;;
  let dstType := getElementTypeOrSelf r in
  s <- cast srcType ;;
  d <- cast dstType ;;
  if ValType_getWidth d <? ValType_getWidth s then
    Ok (failure (emitError op "result type " ++
                 [DType dstType;
                  DString " must be wider than operand type ";
                  DType srcType])%list)
  else Ok success.

Definition verifyConcatOp (op : Operation) : Outcome LogicalResult :=
  l <- Accessors.lhs op ;;
  let firstType := getElementTypeOrSelf (getType l) in
  r <- Accessors.rhs op ;;
  let secondType := getElementTypeOrSelf (getType r) in
  t <- Accessors.getType op ;;
  let dstType := getElementTypeOrSelf t in
  f <- cast firstType ;;
  s <- cast secondType ;;
  let sumOfTypes := uadd (ValType_getWidth f) (ValType_getWidth s) in
  d <- cast dstType ;;
  if negb (sumOfTypes =? ValType_getWidth d) then
    Ok (failure (emitError op "sum of " ++
                 [DType firstType; DString " and "; DType secondType;
                  DString " must be equal to operand type "; DType dstType])%list)
  else Ok success.

End WidthVerifiers.

(* ================================================================= *)
(** ** Constraint, boolean, compare and assert-not verifiers *)

Definition lengthOneMessage : string :=
  "result must be bit vector of length 1 instead got length of ".

Definition verifyConstraintOp (op : Operation) : Outcome LogicalResult :=
  c <- Accessors.constraint op ;;
  let resultType := getBVType (getType c) in
  w <- getWidth resultType ;;
  if negb (w =? 1) then
    Ok (failure (emitOpError op ++ [DString lengthOneMessage; DUnsigned w])%list)
  else Ok success.

Definition verifyBooleanOp (op : Operation) : Outcome LogicalResult :=
  r <- Accessors.result op ;;
  let resultType := getBVType r in
  w <- getWidth resultType ;;
  if negb (w =? 1) then
    Ok (failure (emitOpError op ++ [DString lengthOneMessage; DUnsigned w])%list)
  else Ok success.

Definition verifyCmpOp (op : Operation) : Outcome LogicalResult :=
  r <- Accessors.result op ;;
  resultLength <- getWidth (getBVType r) ;;
  if negb (resultLength =? 1) then
    Ok (failure (emitOpError op ++ [DString lengthOneMessage; DUnsigned resultLength])%list)
  else Ok success.

Definition verifyAssertNotOp (op : Operation) : Outcome LogicalResult :=
  a <- Accessors.arg op ;;
  resultLength <- getWidth (getBVType (getType a)) ;;
  if negb (resultLength =? 1) then
    Ok (failure (emitOpError op ++ [DString lengthOneMessage; DUnsigned resultLength])%list)
  else Ok success.

(* ================================================================= *)
(** ** Array operations, generic encoding *)

(** Modelled from the spec: [getArrayType] is declared with the operation
    classes, which are generated and not part of [BtorOps.cpp].  An
    initialised array is the operation's result (``InitArrayOp(initValue) ->
    array''), so its array type is the result type. *)
Definition InitArrayOp_getArrayType (op : Operation) : Outcome btor.ArrayType :=
  r <- Accessors.result op ;;
  cast_ArrayType r.

Definition verifyInitArrayOp (op : Operation) : Outcome LogicalResult :=
  i <- Accessors.init op ;;
  let initType := getBVType (getType i) in
  initWidth <- getWidth initType ;;
  a <- InitArrayOp_getArrayType op ;;
  let elementType := btor.getElement a in
  if negb (btor.getWidth elementType =? initWidth) then
    Ok (failure (emitOpError op ++
                 [DString "element initWidth of the array must match ";
                  DString " bitwidth of given value: "; DUnsigned initWidth])%list)
  else Ok success.

(* ================================================================= *)
(** ** Array operations, vector and memref encodings *)

(** Modelled from the spec: the [getArrayType] accessors of the vector and
    memref operations, declared with the generated operation classes.  An
    init operation's array is its result, a read's array is its [base]
    (operand 0 of ``ReadOp(base, index)''), a write's array is its result
    (``WriteOp(value, base, index)'' produces a new array of the type of
    [base]). *)
Definition VectorInitArrayOp_getArrayType (op : Operation) : Outcome ShapedType :=
  r <- Accessors.result op ;;
  cast_VectorType r.

Definition VectorReadOp_getArrayType (op : Operation) : Outcome ShapedType :=
  b <- getOperand op 0 ;;
  cast_VectorType (getType b).

Definition VectorWriteOp_getArrayType (op : Operation) : Outcome ShapedType :=
  r <- Accessors.result op ;;
  cast_VectorType r.

Definition MemRefReadOp_getArrayType (op : Operation) : Outcome ShapedType :=
  b <- getOperand op 0 ;;
  cast_MemRefType (getType b).

Definition MemRefWriteOp_getArrayType (op : Operation) : Outcome ShapedType :=
  r <- Accessors.result op ;;
  cast_MemRefType r.

(** [getShape()[0]]: indexing an empty [ArrayRef] is an assertion failure. *)
Definition shapeAt0 (t : ShapedType) : Outcome Z :=
  match getShape t with
  | s :: _ => Ok s
  | [] => Abort
  end.

(** [getShape().size() != 1]. *)
Definition rankIsNotOne (t : ShapedType) : bool :=
  negb (Nat.eqb (List.length (getShape t)) 1).

Definition verifyVectorInitArrayOp (op : Operation) : Outcome LogicalResult :=
  i <- Accessors.init op ;;
  let initType := getType i in
  initWidth <- getIntOrFloatBitWidth initType ;;
  a <- VectorInitArrayOp_getArrayType op ;;
  let elementType := getElementType a in
  ew <- getIntOrFloatBitWidth elementType ;;
  if negb (ew =? initWidth) then
    Ok (failure (emitOpError op ++
                 [DString "element type of the array must match ";
                  DString " bitwidth of given value: "; DUnsigned initWidth])%list)
  else if rankIsNotOne a then
    Ok (failure (emitOpError op ++ [DString "provide only one shape attribute "])%list)
  else
    shape <- shapeAt0 a ;;
    let indicator := Z.land shape (sub64 shape 1) in
    if negb (indicator =? 0)%Z then
      Ok (failure (emitOpError op ++
                   [DString "given shape: "; DInteger shape;
                    DString " has to be a power of two"])%list)
    else Ok success.

Definition verifyVectorReadOp (op : Operation) : Outcome LogicalResult :=
  r <- Accessors.result op ;;
  type <- getIntOrFloatBitWidth r ;;
  a <- VectorReadOp_getArrayType op ;;
  ew <- getIntOrFloatBitWidth (getElementType a) ;;
  if negb (ew =? type) then
    Ok (failure (emitOpError op ++
                 [DString "element type of the array must match ";
                  DString " bitwidth of return type: "; DUnsigned type])%list)
  else if rankIsNotOne a then
    Ok (failure (emitOpError op ++ [DString "provide only one shape attribute "])%list)
  else
    shape <- shapeAt0 a ;;
    let indicator := Z.land shape (sub64 shape 1) in
    if negb (indicator =? 0)%Z then
      Ok (failure (emitOpError op ++
                   [DString "given shape: "; DInteger shape;
                    DString " has to be a power of two"])%list)
    else Ok success.

(** [op.value()] is operand 0: the write parsers resolve
    [{value, base, index}] in that order. *)
Definition verifyVectorWriteOp (op : Operation) : Outcome LogicalResult :=
  v <- getOperand op 0 ;;
  type <- getIntOrFloatBitWidth (getType v) ;;
  a <- VectorWriteOp_getArrayType op ;;
  ew <- getIntOrFloatBitWidth (getElementType a) ;;
  if negb (ew =? type) then
    Ok (failure (emitOpError op ++
                 [DString "element type of the array must match ";
                  DString " bitwidth of given value: "; DUnsigned type])%list)
  else Ok success.

(** Every check of this verifier is commented out in the source; what is
    left is [return success()]. *)
Definition verifyMemRefInitArrayOp (op : Operation) : Outcome LogicalResult :=
  Ok success.

Definition verifyMemRefReadOp (op : Operation) : Outcome LogicalResult :=
  r <- Accessors.result op ;;
  type <- getIntOrFloatBitWidth r ;;
  a <- MemRefReadOp_getArrayType op ;;
  ew <- getIntOrFloatBitWidth (getElementType a) ;;
  if negb (ew =? type) then
    Ok (failure (emitOpError op ++
                 [DString "element type of the array must match ";
                  DString " bitwidth of return type: "; DUnsigned type])%list)
  else if rankIsNotOne a then
    Ok (failure (emitOpError op ++ [DString "provide only one shape attribute "])%list)
  else
    shape <- shapeAt0 a ;;
    let indicator := Z.land shape (sub64 shape 1) in
    if negb (indicator =? 0)%Z then
      Ok (failure (emitOpError op ++
                   [DString "given shape: "; DInteger shape;
                    DString " has to be a power of two"])%list)
    else Ok success.

Definition verifyMemRefWriteOp (op : Operation) : Outcome LogicalResult :=
  v <- getOperand op 0 ;;
  type <- getIntOrFloatBitWidth (getType v) ;;
  a <- MemRefWriteOp_getArrayType op ;;
  ew <- getIntOrFloatBitWidth (getElementType a) ;;
  if negb (ew =? type) then
    Ok (failure (emitOpError op ++
                 [DString "element type of the array must match ";
                  DString " bitwidth of given value: "; DUnsigned type])%list)
  else Ok success.

(* ================================================================= *)
(** ** Constant folding *)

(** [ConstantOp::fold]: asserts the operand list is empty and returns the
    [value] attribute. *)
Definition ConstantOp_fold (op : Operation) (operands : list Attribute)
  : Outcome Attribute :=
  match operands with
  | [] => Accessors.value op
  | _ :: _ => Abort
  end.

(* ================================================================= *)
(** ** Custom assembly: the text and the parser interface

    The custom printers and parsers see the text of an operation through
    [OpAsmPrinter] and [OpAsmParser].  The text is taken here at the
    granularity at which those interfaces hand it over: operand names and
    punctuation as single tokens, and a type or an attribute dictionary as
    one token each (their grammars belong to the type and attribute
    parsers).  White space is not a token. *)

Inductive Token : Type :=
| percent_identifier (name : string)
| comma
| colon
| l_square
| r_square
| type_token (t : Ty)
| attr_dict (attrs : NamedAttrList).

(** The parser: the text still to read, and the SSA values in scope. *)
Record Parser : Type := parser {
  tokens : list Token;
  scope : list (string * Ty)
}.

(** [OperationState]: what a custom parser fills in. *)
Record OperationState : Type := operationState {
  operands : list Value;
  types : list Ty;
  attributes : NamedAttrList
}.

(** Storing the dictionary [parseOptionalAttrDict] wrote through
    [result.attributes]. *)
Definition setAttributes (result : OperationState) (attrs : NamedAttrList)
  : OperationState :=
  operationState (operands result) (types result) attrs.

Definition emptyState : OperationState := operationState [] [] [].

(** [result.addTypes(ts)]. *)
Definition addTypes (result : OperationState) (ts : list Ty) : OperationState :=
  operationState (operands result) (types result ++ ts) (attributes result).

(** [Operation::create]: the operation a filled-in state stands for. *)
Definition create (name : string) (st : OperationState) : Operation :=
  operation name (operands st) (types st) (attributes st).

(** A parsing step: [None] is [failure()]. *)
Definition ParseM (A : Type) : Type := Parser -> option (A * Parser).

Definition pret {A : Type} (a : A) : ParseM A := fun p => Some (a, p).

Definition pfail {A : Type} : ParseM A := fun _ => None.

Definition pbind {A B : Type} (m : ParseM A) (k : A -> ParseM B) : ParseM B :=
  fun p =>
    match m p with
    | Some (a, p') => k a p'
    | None => None
    end.

Declare Scope parse_scope.
Delimit Scope parse_scope with parse.
Notation "x <- m ;; k" := (pbind m (fun x => k))
  (at level 61, m at next level, right associativity) : parse_scope.

(** [parser.parseOperand]. *)
Definition parseOperand : ParseM string := fun p =>
  match tokens p with
  | percent_identifier x :: rest => Some (x, parser rest (scope p))
  | _ => None
  end.

(** The comma-separated run of operands at the head of the text. *)
Fixpoint operandRun (toks : list Token) : option (list string * list Token) :=
  match toks with
  | percent_identifier x :: rest =>
      match rest with
      | comma :: rest' =>
          match operandRun rest' with
          | Some (xs, r) => Some (x :: xs, r)
          | None => None
          end
      | _ => Some ([x], rest)
      end
  | _ => None
  end.

(** [parser.parseOperandList(operands, requiredOperandCount)], without
    delimiters: no operand at all is accepted only when none is required;
    otherwise the run is read and its length must be the required one. *)
Definition parseOperandList (requiredOperandCount : nat) : ParseM (list string) :=
  fun p =>
    match tokens p with
    | percent_identifier _ :: _ =>
        match operandRun (tokens p) with
        | Some (xs, rest) =>
            if Nat.eqb (List.length xs) requiredOperandCount
            then Some (xs, parser rest (scope p))
            else None
        | None => None
        end
    | _ => if Nat.eqb requiredOperandCount 0 then Some ([], p) else None
    end.

(** [parser.parseOptionalAttrDict(attrs)]: a dictionary, when the text has
    one here, is appended to [attrs]. *)
Definition parseOptionalAttrDict (attrs : NamedAttrList) : ParseM NamedAttrList :=
  fun p =>
    match tokens p with
    | attr_dict d :: rest => Some ((attrs ++ d)%list, parser rest (scope p))
    | _ => Some (attrs, p)
    end.

Definition parseColon : ParseM unit := fun p =>
  match tokens p with
  | colon :: rest => Some (tt, parser rest (scope p))
  | _ => None
  end.

(** [succeeded(parser.parseOptionalComma())]. *)
Definition parseOptionalComma : ParseM bool := fun p =>
  match tokens p with
  | comma :: rest => Some (true, parser rest (scope p))
  | _ => Some (false, p)
  end.

Definition parseType : ParseM Ty := fun p =>
  match tokens p with
  | type_token t :: rest => Some (t, parser rest (scope p))
  | _ => None
  end.

Definition parseColonType : ParseM Ty :=
  (_ <- parseColon ;; parseType)%parse.

Fixpoint lookupScope (name : string) (sc : list (string * Ty)) : option Ty :=
  match sc with
  | [] => None
  | (k, t) :: rest => if String.eqb k name then Some t else lookupScope name rest
  end.

(** The value [v] has been defined before the text being parsed. *)
Definition inScope (sc : list (string * Ty)) (v : Value) : Prop :=
  lookupScope (Value_name v) sc = Some (getType v).

(** Resolving one use: a value in scope must have the type asked for; a
    name not yet in scope becomes a forward reference of that type. *)
Definition resolveOperand (name : string) (type : Ty) : ParseM Value := fun p =>
  match lookupScope name (scope p) with
  | Some t =>
      if Ty_eq_dec t type then Some (value name type, p) else None
  | None =>
      Some (value name type, parser (tokens p) ((name, type) :: scope p))
  end.

Fixpoint resolveEach (names : list string) (tys : list Ty) : ParseM (list Value) :=
  match names, tys with
  | n :: names', t :: tys' =>
      (v <- resolveOperand n t ;;
       vs <- resolveEach names' tys' ;;
       pret (v :: vs))%parse
  | _, _ => pret []
  end.

(** [parser.resolveOperands(operands, types, loc, result.operands)]: the two
    lists must have the same length; the resolved values are appended to the
    operands of [result]. *)
Definition resolveOperands (names : list string) (tys : list Ty)
    (result : OperationState) : ParseM OperationState :=
  if negb (Nat.eqb (List.length names) (List.length tys)) then pfail
  else
    (vs <- resolveEach names tys ;;
     pret (operationState (operands result ++ vs) (types result)
             (attributes result)))%parse.

(* ----------------------------------------------------------------- *)
(** *** The printer interface *)

(** [p << values]: the names, separated by commas. *)
Fixpoint printOperands (vs : list Value) : list Token :=
  match vs with
  | [] => []
  | [v] => [percent_identifier (Value_name v)]
  | v :: rest => percent_identifier (Value_name v) :: comma :: printOperands rest
  end.

(** [p.printOptionalAttrDict(attrs)]: nothing for an empty dictionary. *)
Definition printOptionalAttrDict (attrs : NamedAttrList) : list Token :=
  match attrs with
  | [] => []
  | _ :: _ => [attr_dict attrs]
  end.

(* ================================================================= *)
(** ** IteOp *)

Definition printIteOp (op : Operation) : Outcome (list Token) :=
  t <- Accessors.getType op ;;
  Ok (printOperands (getOperands op) ++ [colon; type_token t])%list.

Definition parseIteOp (result : OperationState) : ParseM OperationState :=
  (operandNames <- parseOperandList 3 ;;
   attrs <- parseOptionalAttrDict (attributes result) ;;
   let result := setAttributes result attrs in
   resultType <- parseColonType ;;
   hasComma <- parseOptionalComma ;;
   ct <- (if hasComma : bool
          then (t <- parseType ;; pret (resultType, t))
          else pret (bvN 1, resultType)) ;;
   let conditionType := fst ct in
   let resultType := snd ct in
   let result := addTypes result [resultType] in
   resolveOperands operandNames [conditionType; resultType; resultType] result)%parse.

(* ================================================================= *)
(** ** Overflow operations *)

Definition parseBinaryOverflowOp (result : OperationState) : ParseM OperationState :=
  (operandNames <- parseOperandList 2 ;;
   attrs <- parseOptionalAttrDict (attributes result) ;;
   let result := setAttributes result attrs in
   operandType <- parseColonType ;;
   let result := addTypes result [bvN 1] in
   resolveOperands operandNames [operandType; operandType] result)%parse.

Definition printBinaryOverflowOp (op : Operation) : Outcome (list Token) :=
  if negb (Nat.eqb (List.length (getOperands op)) 2) then Abort
  else if negb (Nat.eqb (List.length (getResultTypes op)) 1) then Abort
  else
    a <- getOperand op 0 ;;
    b <- getOperand op 1 ;;
    Ok ([percent_identifier (Value_name a); comma; percent_identifier (Value_name b)]
        ++ printOptionalAttrDict (getAttrs op)
        ++ [colon; type_token (getType a)])%list.

(* ================================================================= *)
(** ** More of the parser interface *)

Definition parseComma : ParseM unit := fun p =>
  match tokens p with
  | comma :: rest => Some (tt, parser rest (scope p))
  | _ => None
  end.

Definition parseLSquare : ParseM unit := fun p =>
  match tokens p with
  | l_square :: rest => Some (tt, parser rest (scope p))
  | _ => None
  end.

Definition parseRSquare : ParseM unit := fun p =>
  match tokens p with
  | r_square :: rest => Some (tt, parser rest (scope p))
  | _ => None
  end.

(** [parser.parseOptionalComma()] as a link of a [||] chain.  Its
    [ParseResult] is a success only when a comma was there to consume, so
    in a chain the text without the comma is a failure. *)
Definition parseOptionalCommaInChain : ParseM unit :=
  (c <- parseOptionalComma ;; if c : bool then pret tt else pfail)%parse.

(** [parser.parseType(result)] into a variable of a type class [TypeT]: a
    type is parsed and [dyn_cast] to [TypeT]; a null result is a failure. *)
Definition parseTypeAs {TypeT : Type} (dyn_cast : Ty -> option TypeT) : ParseM TypeT :=
  (t <- parseType ;;
   match dyn_cast t with
   | Some r => pret r
   | None => pfail
   end)%parse.

Definition dyn_cast_ArrayType (t : Ty) : option btor.ArrayType :=
  match t with
  | ArrayTy a => Some a
  | _ => None
  end.

Definition dyn_cast_VectorType (t : Ty) : option ShapedType :=
  match t with
  | VectorTy s e => Some (shaped s e)
  | _ => None
  end.

Definition dyn_cast_MemRefType (t : Ty) : option ShapedType :=
  match t with
  | MemRefTy s e => Some (shaped s e)
  | _ => None
  end.

(* ================================================================= *)
(** ** Unary operations with a width-1 result *)

Definition printBtorUnaryOp (op : Operation) : Outcome (list Token) :=
  if negb (Nat.eqb (List.length (getOperands op)) 1) then Abort
  else if negb (Nat.eqb (List.length (getResultTypes op)) 1) then Abort
  else
    a <- getOperand op 0 ;;
    Ok ([percent_identifier (Value_name a)]
        ++ printOptionalAttrDict (getAttrs op)
        ++ [colon; type_token (getType a)])%list.

Definition parseUnaryDifferentResultOp (result : OperationState)
  : ParseM OperationState :=
  (operandNames <- parseOperandList 1 ;;
   attrs <- parseOptionalAttrDict (attributes result) ;;
   let result := setAttributes result attrs in
   operandType <- parseColonType ;;
   let result := addTypes result [bvN 1] in
   resolveOperands operandNames [operandType] result)%parse.

(** [getI1SameShape]: the width-1 bit-vector type, whatever the argument. *)
Definition getI1SameShape (type : Ty) : Ty := bvN 1.

(* ================================================================= *)
(** ** The text of SliceOp and ConcatOp *)

Definition parseSliceOp (result : OperationState) : ParseM OperationState :=
  (operandNames <- parseOperandList 3 ;;
   attrs <- parseOptionalAttrDict (attributes result) ;;
   let result := setAttributes result attrs in
   _ <- parseColon ;;
   operandType <- parseType ;;
   _ <- parseOptionalCommaInChain ;;
   resultType <- parseType ;;
   let result := addTypes result [resultType] in
   resolveOperands operandNames [operandType; operandType; operandType] result)%parse.

Definition printSliceOp (op : Operation) : Outcome (list Token) :=
  if negb (Nat.eqb (List.length (getOperands op)) 3) then Abort
  else if negb (Nat.eqb (List.length (getResultTypes op)) 1) then Abort
  else
    a <- getOperand op 0 ;;
    b <- getOperand op 1 ;;
    c <- getOperand op 2 ;;
    r <- getResultType op 0 ;;
    Ok ([percent_identifier (Value_name a); comma;
         percent_identifier (Value_name b); comma;
         percent_identifier (Value_name c)]
        ++ printOptionalAttrDict (getAttrs op)
        ++ [colon; type_token (getType a); comma; type_token r])%list.

Definition parseConcatOp (result : OperationState) : ParseM OperationState :=
  (operandNames <- parseOperandList 2 ;;
   attrs <- parseOptionalAttrDict (attributes result) ;;
   let result := setAttributes result attrs in
   _ <- parseColon ;;
   firstOperandType <- parseType ;;
   _ <- parseOptionalCommaInChain ;;
   secondOperandType <- parseType ;;
   _ <- parseOptionalCommaInChain ;;
   resultType <- parseType ;;
   let result := addTypes result [resultType] in
   resolveOperands operandNames [firstOperandType; secondOperandType] result)%parse.

Definition printConcatOp (op : Operation) : Outcome (list Token) :=
  if negb (Nat.eqb (List.length (getOperands op)) 2) then Abort
  else
    a <- getOperand op 0 ;;
    b <- getOperand op 1 ;;
    r <- getResultType op 0 ;;
    Ok ([percent_identifier (Value_name a); comma; percent_identifier (Value_name b)]
        ++ printOptionalAttrDict (getAttrs op)
        ++ [colon; type_token (getType a); comma; type_token (getType b);
            comma; type_token r])%list.

(* ================================================================= *)
(** ** Array operations, generic encoding: read, write, conditional write *)

(** Modelled from the spec: the operand accessors of the array operations,
    generated with the operation classes.  Positions are those at which the
    custom parsers of the source resolve the operands: [{init}] for
    [InitArrayOp], [{base, index}] for [ReadOp], [{value, base, index}] for
    [WriteOp], [{condition, value, base, index}] for [IteWriteInPlaceOp]. *)
Module ArrayAccessors.
Definition ReadOp_base (op : Operation) : Outcome Value := getOperand op 0.
Definition ReadOp_index (op : Operation) : Outcome Value := getOperand op 1.
Definition WriteOp_value (op : Operation) : Outcome Value := getOperand op 0.
Definition WriteOp_base (op : Operation) : Outcome Value := getOperand op 1.
Definition WriteOp_index (op : Operation) : Outcome Value := getOperand op 2.
Definition IteWrite_condition (op : Operation) : Outcome Value := getOperand op 0.
Definition IteWrite_value (op : Operation) : Outcome Value := getOperand op 1.
Definition IteWrite_base (op : Operation) : Outcome Value := getOperand op 2.
Definition IteWrite_index (op : Operation) : Outcome Value := getOperand op 3.
End ArrayAccessors.

(** Modelled from the spec: [getArrayType] of the generic read and write
    operations, declared with the generated operation classes.  A read's
    array is its [base]; a write's and a conditional write's array is the
    array it produces, which has the type of [base]. *)
Definition ReadOp_getArrayType (op : Operation) : Outcome btor.ArrayType :=
  b <- ArrayAccessors.ReadOp_base op ;;
  cast_ArrayType (getType b).

Definition WriteOp_getArrayType (op : Operation) : Outcome btor.ArrayType :=
  r <- Accessors.result op ;;
  cast_ArrayType r.

Definition IteWriteInPlaceOp_getArrayType (op : Operation) : Outcome btor.ArrayType :=
  r <- Accessors.result op ;;
  cast_ArrayType r.

Definition verifyIteWriteInPlaceOp (op : Operation) : Outcome LogicalResult :=
  v <- ArrayAccessors.IteWrite_value op ;;
  let valType := getBVType (getType v) in
  valWidth <- getWidth valType ;;
  a <- IteWriteInPlaceOp_getArrayType op ;;
  if negb (btor.getWidth (btor.getElement a) =? valWidth) then
    Ok (failure (emitOpError op ++
                 [DString "element type of the array must match ";
                  DString " bitwidth of return type: "; DUnsigned valWidth])%list)
  else
    c <- ArrayAccessors.IteWrite_condition op ;;
    cw <- getWidth (getBVType (getType c)) ;;
    if negb (cw =? 1) then
      Ok (failure [DString "condition needs to have width 1 (a boolean)"])
    else Ok success.

Definition printIteWriteInPlaceOp (op : Operation) : Outcome (list Token) :=
  c <- ArrayAccessors.IteWrite_condition op ;;
  v <- ArrayAccessors.IteWrite_value op ;;
  b <- ArrayAccessors.IteWrite_base op ;;
  i <- ArrayAccessors.IteWrite_index op ;;
  r <- Accessors.result op ;;
  Ok ([percent_identifier (Value_name c); comma;
       percent_identifier (Value_name v); comma;
       percent_identifier (Value_name b); l_square;
       percent_identifier (Value_name i); r_square]
      ++ printOptionalAttrDict (getAttrs op)
      ++ [colon; type_token r])%list.

Definition parseIteWriteInPlaceOp (result : OperationState) : ParseM OperationState :=
  (condition <- parseOperand ;;
   _ <- parseComma ;;
   value <- parseOperand ;;
   _ <- parseComma ;;
   base <- parseOperand ;;
   _ <- parseLSquare ;;
   index <- parseOperand ;;
   _ <- parseRSquare ;;
   attrs <- parseOptionalAttrDict (attributes result) ;;
   let result := setAttributes result attrs in
   _ <- parseColon ;;
   resultType <- parseTypeAs dyn_cast_ArrayType ;;
   let result := addTypes result [ArrayTy resultType] in
   let indexType := btor.getShape resultType in
   let conditionType := bvN 1 in
   resolveOperands [condition; value; base; index]
     [conditionType; BitVecTy (btor.getElement resultType); ArrayTy resultType;
      BitVecTy indexType]
     result)%parse.

Definition printInitArrayOp (op : Operation) : Outcome (list Token) :=
  i <- Accessors.init op ;;
  r <- Accessors.result op ;;
  Ok ([percent_identifier (Value_name i)]
      ++ printOptionalAttrDict (getAttrs op)
      ++ [colon; type_token r])%list.

Definition parseInitArrayOp (result : OperationState) : ParseM OperationState :=
  (init <- parseOperand ;;
   attrs <- parseOptionalAttrDict (attributes result) ;;
   let result := setAttributes result attrs in
   _ <- parseColon ;;
   resultType <- parseTypeAs dyn_cast_ArrayType ;;
   let result := addTypes result [ArrayTy resultType] in
   resolveOperands [init] [BitVecTy (btor.getElement resultType)] result)%parse.

Definition printReadOp (op : Operation) : Outcome (list Token) :=
  b <- ArrayAccessors.ReadOp_base op ;;
  i <- ArrayAccessors.ReadOp_index op ;;
  r <- Accessors.result op ;;
  Ok ([percent_identifier (Value_name b); l_square;
       percent_identifier (Value_name i); r_square]
      ++ printOptionalAttrDict (getAttrs op)
      ++ [colon; type_token (getType b); comma; type_token r])%list.

Definition verifyReadOp (op : Operation) : Outcome LogicalResult :=
  r <- Accessors.result op ;;
  let resultType := getBVType r in
  resWidth <- getWidth resultType ;;
  a <- ReadOp_getArrayType op ;;
  if negb (btor.getWidth (btor.getElement a) =? resWidth) then
    Ok (failure (emitOpError op ++
                 [DString "element type of the array must match ";
                  DString " bitwidth of return type: "; DUnsigned resWidth])%list)
  else Ok success.

Definition parseReadOp (result : OperationState) : ParseM OperationState :=
  (base <- parseOperand ;;
   _ <- parseLSquare ;;
   index <- parseOperand ;;
   _ <- parseRSquare ;;
   attrs <- parseOptionalAttrDict (attributes result) ;;
   let result := setAttributes result attrs in
   _ <- parseColon ;;
   baseType <- parseTypeAs dyn_cast_ArrayType ;;
   _ <- parseOptionalCommaInChain ;;
   resultType <- parseTypeAs getBVType ;;
   let result := addTypes result [BitVecTy resultType] in
   let indexType := btor.getShape baseType in
   resolveOperands [base; index] [ArrayTy baseType; BitVecTy indexType] result)%parse.

Definition printWriteOp (op : Operation) : Outcome (list Token) :=
  v <- ArrayAccessors.WriteOp_value op ;;
  b <- ArrayAccessors.WriteOp_base op ;;
  i <- ArrayAccessors.WriteOp_index op ;;
  r <- Accessors.result op ;;
  Ok ([percent_identifier (Value_name v); comma;
       percent_identifier (Value_name b); l_square;
       percent_identifier (Value_name i); r_square]
      ++ printOptionalAttrDict (getAttrs op)
      ++ [colon; type_token r])%list.

Definition verifyWriteOp (op : Operation) : Outcome LogicalResult :=
  v <- ArrayAccessors.WriteOp_value op ;;
  let valType := getBVType (getType v) in
  valWidth <- getWidth valType ;;
  a <- WriteOp_getArrayType op ;;
  if negb (btor.getWidth (btor.getElement a) =? valWidth) then
    Ok (failure (emitOpError op ++
                 [DString "element type of the array must match ";
                  DString " bitwidth of return type: "; DUnsigned valWidth])%list)
  else Ok success.

Definition parseWriteOp (result : OperationState) : ParseM OperationState :=
  (value <- parseOperand ;;
   _ <- parseComma ;;
   base <- parseOperand ;;
   _ <- parseLSquare ;;
   index <- parseOperand ;;
   _ <- parseRSquare ;;
   attrs <- parseOptionalAttrDict (attributes result) ;;
   let result := setAttributes result attrs in
   _ <- parseColon ;;
   resultType <- parseTypeAs dyn_cast_ArrayType ;;
   let result := addTypes result [ArrayTy resultType] in
   let indexType := btor.getShape resultType in
   resolveOperands [value; base; index]
     [BitVecTy (btor.getElement resultType); ArrayTy resultType; BitVecTy indexType]
     result)%parse.

(* ================================================================= *)
(** ** Constant operations *)

(** [attr.getType().getIntOrFloatBitWidth()].  An integer attribute carries
    its integer type; the other kinds carry the builtin [none] type, which
    has no bit width. *)
Definition attributeBitWidth (a : Attribute) : Outcome N :=
  match a with
  | IntegerAttr t _ => getIntOrFloatBitWidth t
  | StringAttr _ | UnitAttr => Abort
  end.

(** [verifyConstantOp].  [op.valueAttr().getType()] is taken before the
    test; the test itself short-circuits on a null [resultType].  The
    failure is a bare [failure()]: no diagnostic is emitted. *)
Definition verifyConstantOp (op : Operation) : Outcome LogicalResult :=
  r <- Accessors.result op ;;
  let resultType := getBVType r in
  a <- Accessors.value op ;;
  match resultType with
  | None => Ok (failure [])
  | Some t =>
      w <- attributeBitWidth a ;;
      if btor.getWidth t =? w then Ok success else Ok (failure [])
  end.

(* ================================================================= *)
(** ** The text of the vector and memref init operations *)

Definition printVectorInitArrayOp (op : Operation) : Outcome (list Token) :=
  i <- Accessors.init op ;;
  r <- Accessors.result op ;;
  Ok ([percent_identifier (Value_name i)]
      ++ printOptionalAttrDict (getAttrs op)
      ++ [colon; type_token r])%list.

Definition parseVectorInitArrayOp (result : OperationState) : ParseM OperationState :=
  (init <- parseOperand ;;
   attrs <- parseOptionalAttrDict (attributes result) ;;
   let result := setAttributes result attrs in
   _ <- parseColon ;;
   resultType <- parseTypeAs dyn_cast_VectorType ;;
   let result := addTypes result [VectorTy (getShape resultType) (getElementType resultType)] in
   resolveOperands [init] [getElementType resultType] result)%parse.

Definition printMemRefInitArrayOp (op : Operation) : Outcome (list Token) :=
  r <- Accessors.result op ;;
  Ok (printOptionalAttrDict (getAttrs op) ++ [colon; type_token r])%list.

Definition parseMemRefInitArrayOp (result : OperationState) : ParseM OperationState :=
  (attrs <- parseOptionalAttrDict (attributes result) ;;
   let result := setAttributes result attrs in
   _ <- parseColon ;;
   resultType <- parseTypeAs dyn_cast_MemRefType ;;
   let result := addTypes result [MemRefTy (getShape resultType) (getElementType resultType)] in
   resolveOperands [] [] result)%parse.

(* ================================================================= *)
(** ** Vocabulary of the properties *)

(** [n] is an exact power of two. *)
Definition isPowerOfTwo (n : Z) : Prop := exists k : Z, (0 <= k)%Z /\ n = (2 ^ k)%Z.

(** The op error of the shape test, as the three verifiers that run it
    build it. *)
Definition shapeDiagnostic (op : Operation) (shape : Z) : Diagnostic :=
  [DString "'"; DString (getName op); DString "' op ";
   DString "given shape: "; DInteger shape;
   DString " has to be a power of two"].

(** The op error of [verifyInitArrayOp]: the operation name and the width of
    the init value. *)
Definition initWidthDiagnostic (op : Operation) (initWidth : N) : Diagnostic :=
  [DString "'"; DString (getName op); DString "' op ";
   DString "element initWidth of the array must match ";
   DString " bitwidth of given value: "; DUnsigned initWidth].

(** What the constraint, boolean, compare and assert-not verifiers do once
    the type under test is in hand. *)
Definition lengthOneVerdict (op : Operation) (t : Ty) : Outcome LogicalResult :=
  w <- getWidth (getBVType t) ;;
  if negb (w =? 1) then
    Ok (failure (emitOpError op ++ [DString lengthOneMessage; DUnsigned w])%list)
  else Ok success.

(** The op error of the generic read, write and conditional-write
    verifiers: the operation name and the width they compared the element
    width with. *)
Definition returnTypeDiagnostic (op : Operation) (w : N) : Diagnostic :=
  [DString "'"; DString (getName op); DString "' op ";
   DString "element type of the array must match ";
   DString " bitwidth of return type: "; DUnsigned w].

(** The op errors of the vector and memref verifiers. *)
Definition givenValueDiagnostic (op : Operation) (w : N) : Diagnostic :=
  [DString "'"; DString (getName op); DString "' op ";
   DString "element type of the array must match ";
   DString " bitwidth of given value: "; DUnsigned w].

Definition rankDiagnostic (op : Operation) : Diagnostic :=
  [DString "'"; DString (getName op); DString "' op ";
   DString "provide only one shape attribute "].

(* ================================================================= *)
(** * Properties *)

(** ** Arithmetic facts *)

Lemma sub64_exact (n : Z) : (INT64_MIN < n <= INT64_MAX)%Z -> sub64 n 1 = (n - 1)%Z.
Proof.
  unfold sub64, wrap64, INT64_MIN, INT64_MAX. intros Hn.
  rewrite Z.mod_small; lia.
Qed.

Lemma zero_not_power_of_two : ~ isPowerOfTwo 0.
Proof.
  intros [k [Hk Hz]].
  pose proof (Z.pow_pos_nonneg 2 k ltac:(lia) Hk). lia.
Qed.

Lemma land_pred_power_of_two (n : Z) :
  (0 < n)%Z -> Z.land n (n - 1) = 0%Z <-> isPowerOfTwo n.
Proof.
  intros Hn. split.
  - intros Hz. exists (Z.log2 n). split; [apply Z.log2_nonneg|].
    destruct (Z.eq_dec n (2 ^ Z.log2 n)) as [|Hne]; [assumption|exfalso].
    destruct (Z.log2_spec n Hn) as [Hlo Hhi].
    assert (Hlog : Z.log2 (n - 1) = Z.log2 n).
    { apply Z.log2_unique; [apply Z.log2_nonneg | lia]. }
    assert (Hone : (0 < 2 ^ Z.log2 n)%Z).
    { apply Z.pow_pos_nonneg; [lia | apply Z.log2_nonneg]. }
    assert (Hbit : Z.testbit (Z.land n (n - 1)) (Z.log2 n) = true).
    { rewrite Z.land_spec, Z.bit_log2 by lia.
      rewrite <- Hlog. apply Z.bit_log2. lia. }
    rewrite Hz, Z.bits_0 in Hbit. discriminate.
  - intros [k [Hk ->]]. apply Z.bits_inj'. intros i Hi.
    rewrite Z.land_spec, Z.bits_0, Z.pow2_bits_eqb by lia.
    replace (2 ^ k - 1)%Z with (Z.ones k) by (rewrite Z.ones_equiv; lia).
    rewrite Z.testbit_ones_nonneg by lia.
    destruct (Z.eqb_spec k i); destruct (Z.ltb_spec i k); try lia; reflexivity.
Qed.

(** On the positive [int64_t] lengths the bit test of the shape verifiers is
    the power-of-two test. *)
Lemma indicator_power_of_two (shape : Z) :
  (0 < shape <= INT64_MAX)%Z ->
  Z.land shape (sub64 shape 1) = 0%Z <-> isPowerOfTwo shape.
Proof.
  intros Hs. rewrite sub64_exact by (unfold INT64_MIN; lia).
  apply land_pred_power_of_two. lia.
Qed.

(** ** Proof steps shared by the verifier lemmas *)

Ltac reduce_verifier :=
  cbn [bind cast BitVecType_ValType ValType_getWidth getBVType getWidth bvN
       btor.getWidth btor.getElement btor.getShape getIntOrFloatBitWidth
       cast_ArrayType cast_VectorType cast_MemRefType getElementType getShape
       shapeAt0 rankIsNotOne List.length Nat.eqb negb].

Ltac run_verifier :=
  reduce_verifier;
  repeat (match goal with
          | H : getOperand _ _ = Ok _ |- _ => rewrite H
          | H : getResultType _ _ = Ok _ |- _ => rewrite H
          | H : getType _ = _ |- _ => rewrite H
          | H : getElementTypeOrSelf _ = _ |- _ => rewrite H
          end; reduce_verifier).

Ltac unfold_accessors :=
  unfold InitArrayOp_getArrayType, VectorInitArrayOp_getArrayType,
    VectorReadOp_getArrayType, VectorWriteOp_getArrayType,
    MemRefReadOp_getArrayType, MemRefWriteOp_getArrayType in *;
  unfold Accessors._in, Accessors.getType, Accessors.result, Accessors.lhs,
    Accessors.rhs, Accessors.arg, Accessors.constraint, Accessors.init in *.

(* ================================================================= *)
(** ** Extension and slice *)

(** C5. A sign- or zero-extension whose source has (element) width [src]
    and whose result has (element) width [dst] verifies successfully exactly
    when [src <= dst]; equal widths pass, and a narrower result is a
    verification error. *)
Theorem verifyExtOp_width_rule (op : Operation) (i : Value) (r : Ty) (src dst : N) :
  getOperand op 0 = Ok i ->
  getResultType op 0 = Ok r ->
  getElementTypeOrSelf (getType i) = bvN src ->
  getElementTypeOrSelf r = bvN dst ->
  (verifyExtOp (V := btor.BitVecType) op = Ok success <-> src <= dst)
  /\ (dst < src ->
      exists d, verifyExtOp (V := btor.BitVecType) op = Ok (failure d)).
Proof.
  intros Hi Hr Hs Hd. unfold verifyExtOp. unfold_accessors.
  run_verifier.
  destruct (N.ltb_spec dst src) as [Hlt | Hge]; split.
  - split; [discriminate | lia].
  - intros _. eexists. reflexivity.
  - split; [lia | reflexivity].
  - lia.
Qed.

Lemma verifyExtOp_width_rule_witness :
  (verifyExtOp (V := btor.BitVecType)
     (operation "btor.uext" [value "x" (bvN 8)] [bvN 8] []) = Ok success
   <-> 8 <= 8)
  /\ (8 < 8 ->
      exists d, verifyExtOp (V := btor.BitVecType)
                  (operation "btor.uext" [value "x" (bvN 8)] [bvN 8] [])
                = Ok (failure d)).
Proof.
  apply (verifyExtOp_width_rule
           (operation "btor.uext" [value "x" (bvN 8)] [bvN 8] [])
           (value "x" (bvN 8)) (bvN 8) 8 8); reflexivity.
Defined.

(** C6. A slice whose source has (element) width [src] and whose result has
    (element) width [dst] verifies successfully exactly when [dst <= src];
    equal widths pass, and a wider result is a verification error. *)
Theorem verifySliceOp_width_rule (op : Operation) (i : Value) (r : Ty) (src dst : N) :
  getOperand op 0 = Ok i ->
  getResultType op 0 = Ok r ->
  getElementTypeOrSelf (getType i) = bvN src ->
  getElementTypeOrSelf r = bvN dst ->
  (verifySliceOp (V := btor.BitVecType) op = Ok success <-> dst <= src)
  /\ (src < dst ->
      exists d, verifySliceOp (V := btor.BitVecType) op = Ok (failure d)).
Proof.
  intros Hi Hr Hs Hd. unfold verifySliceOp. unfold_accessors.
  run_verifier.
  destruct (N.ltb_spec src dst) as [Hlt | Hge]; split.
  - split; [discriminate | lia].
  - intros _. eexists. reflexivity.
  - split; [lia | reflexivity].
  - lia.
Qed.

Lemma verifySliceOp_width_rule_witness :
  (verifySliceOp (V := btor.BitVecType)
     (operation "btor.slice"
        [value "x" (bvN 8); value "hi" (bvN 8); value "lo" (bvN 8)] [bvN 4] [])
   = Ok success <-> 4 <= 8)
  /\ (8 < 4 ->
      exists d, verifySliceOp (V := btor.BitVecType)
                  (operation "btor.slice"
                     [value "x" (bvN 8); value "hi" (bvN 8); value "lo" (bvN 8)]
                     [bvN 4] [])
                = Ok (failure d)).
Proof.
  apply (verifySliceOp_width_rule
           (operation "btor.slice"
              [value "x" (bvN 8); value "hi" (bvN 8); value "lo" (bvN 8)]
              [bvN 4] [])
           (value "x" (bvN 8)) (bvN 4) 8 4); reflexivity.
Defined.

(* ================================================================= *)
(** ** Width-1 results and operands *)

Section LengthOne.
Variable op : Operation.

Lemma lengthOneVerdict_success (t : Ty) :
  lengthOneVerdict op t = Ok success <-> t = bvN 1.
Proof.
  unfold lengthOneVerdict. split.
  - destruct t as [[w]| | | |]; cbn; try discriminate.
    destruct (N.eqb_spec w 1) as [->|]; cbn; [reflexivity | discriminate].
  - intros ->. reflexivity.
Qed.

Lemma lengthOneVerdict_failure (w : N) :
  w <> 1 ->
  lengthOneVerdict op (bvN w)
  = Ok (failure (emitOpError op ++ [DString lengthOneMessage; DUnsigned w])%list).
Proof.
  intros Hw. unfold lengthOneVerdict. cbn.
  destruct (N.eqb_spec w 1); [contradiction | reflexivity].
Qed.

Lemma lengthOneDiagnostic_names (w : N) :
  names w (emitOpError op ++ [DString lengthOneMessage; DUnsigned w])%list = true.
Proof.
  unfold names. rewrite existsb_app. cbn [existsb argNames].
  rewrite N.eqb_refl. now rewrite !orb_true_r.
Qed.

Lemma verifyCmpOp_verdict (r : Ty) :
  getResultType op 0 = Ok r -> verifyCmpOp op = lengthOneVerdict op r.
Proof. intros Hr. unfold verifyCmpOp, Accessors.result. now rewrite Hr. Qed.

Lemma verifyBooleanOp_verdict (r : Ty) :
  getResultType op 0 = Ok r -> verifyBooleanOp op = lengthOneVerdict op r.
Proof. intros Hr. unfold verifyBooleanOp, Accessors.result. now rewrite Hr. Qed.

Lemma verifyAssertNotOp_verdict (a : Value) :
  getOperand op 0 = Ok a -> verifyAssertNotOp op = lengthOneVerdict op (getType a).
Proof. intros Ha. unfold verifyAssertNotOp, Accessors.arg. now rewrite Ha. Qed.

Lemma verifyConstraintOp_verdict (a : Value) :
  getOperand op 0 = Ok a -> verifyConstraintOp op = lengthOneVerdict op (getType a).
Proof. intros Ha. unfold verifyConstraintOp, Accessors.constraint. now rewrite Ha. Qed.

End LengthOne.

(** C8. A comparison or boolean operation with result type [r] verifies
    successfully exactly when [r] is the bit-vector type of width 1, and an
    assert-not or constraint operation with operand [a] verifies
    successfully exactly when [a] has that type; a bit-vector of any other
    width is a verification error (an op error carrying that width). *)
Theorem width_one_rule (cmp : Operation) (r : Ty) (chk : Operation) (a : Value) :
  getResultType cmp 0 = Ok r ->
  getOperand chk 0 = Ok a ->
  (verifyCmpOp cmp = Ok success <-> r = bvN 1)
  /\ (verifyBooleanOp cmp = Ok success <-> r = bvN 1)
  /\ (verifyAssertNotOp chk = Ok success <-> getType a = bvN 1)
  /\ (verifyConstraintOp chk = Ok success <-> getType a = bvN 1)
  /\ (forall w, r = bvN w -> w <> 1 ->
      exists d, verifyCmpOp cmp = Ok (failure d)
                /\ verifyBooleanOp cmp = Ok (failure d)
                /\ names w d = true)
  /\ (forall w, getType a = bvN w -> w <> 1 ->
      exists d, verifyAssertNotOp chk = Ok (failure d)
                /\ verifyConstraintOp chk = Ok (failure d)
                /\ names w d = true).
Proof.
  intros Hr Ha.
  rewrite (verifyCmpOp_verdict cmp r Hr), (verifyBooleanOp_verdict cmp r Hr).
  rewrite (verifyAssertNotOp_verdict chk a Ha), (verifyConstraintOp_verdict chk a Ha).
  split; [apply lengthOneVerdict_success|].
  split; [apply lengthOneVerdict_success|].
  split; [apply lengthOneVerdict_success|].
  split; [apply lengthOneVerdict_success|].
  split.
  - intros w -> Hw. eexists.
    split; [apply lengthOneVerdict_failure; assumption|].
    split; [apply lengthOneVerdict_failure; assumption|].
    apply lengthOneDiagnostic_names.
  - intros w Hta Hw. rewrite Hta. eexists.
    split; [apply lengthOneVerdict_failure; assumption|].
    split; [apply lengthOneVerdict_failure; assumption|].
    apply lengthOneDiagnostic_names.
Qed.

(* ================================================================= *)
(** ** Constant folding *)

(** C9. Folding a constant operation, called as it always is with no
    operand attributes, returns the attribute stored under [value] and
    cannot fail. *)
Theorem ConstantOp_fold_value (op : Operation) (lit : Attribute) :
  lookupAttr "value" (getAttrs op) = Some lit ->
  ConstantOp_fold op [] = Ok lit.
Proof.
  intros Hlit. unfold ConstantOp_fold, Accessors.value, getAttr.
  now rewrite Hlit.
Qed.

Lemma width_one_rule_witness :
  (verifyCmpOp (operation "btor.cmp" [value "x" (bvN 32); value "y" (bvN 32)]
                  [bvN 1] []) = Ok success <-> bvN 1 = bvN 1)
  /\ (verifyAssertNotOp (operation "btor.assert_not" [value "p" (bvN 1)] [] [])
      = Ok success <-> bvN 1 = bvN 1).
Proof.
  destruct (width_one_rule
              (operation "btor.cmp" [value "x" (bvN 32); value "y" (bvN 32)]
                 [bvN 1] [])
              (bvN 1)
              (operation "btor.assert_not" [value "p" (bvN 1)] [] [])
              (value "p" (bvN 1)) eq_refl eq_refl)
    as [Hcmp [_ [Hassert _]]].
  split; assumption.
Defined.

Lemma ConstantOp_fold_value_witness :
  ConstantOp_fold
    (operation "btor.const" [] [bvN 4] [("value", IntegerAttr (IntegerTy 4) 5)]) []
  = Ok (IntegerAttr (IntegerTy 4) 5).
Proof.
  apply (ConstantOp_fold_value
           (operation "btor.const" [] [bvN 4]
              [("value", IntegerAttr (IntegerTy 4) 5)])
           (IntegerAttr (IntegerTy 4) 5)).
  reflexivity.
Defined.

(* ================================================================= *)
(** ** Concatenation *)

(** The verifier compares the result width with the [unsigned] sum. *)
Lemma verifyConcatOp_modular (op : Operation) (l r : Value) (t : Ty) (wl wr wd : N) :
  getOperand op 0 = Ok l ->
  getOperand op 1 = Ok r ->
  getResultType op 0 = Ok t ->
  getElementTypeOrSelf (getType l) = bvN wl ->
  getElementTypeOrSelf (getType r) = bvN wr ->
  getElementTypeOrSelf t = bvN wd ->
  verifyConcatOp (V := btor.BitVecType) op = Ok success
  <-> wd = (wl + wr) mod UINT_MODULUS.
Proof.
  intros Hl Hr Ht Hwl Hwr Hwd. unfold verifyConcatOp. unfold_accessors.
  run_verifier.
  unfold uadd. destruct (N.eqb_spec ((wl + wr) mod UINT_MODULUS) wd) as [Heq | Hne]; cbn.
  - split; [intros _; now symmetry | reflexivity].
  - split; [discriminate | intros Heq; now symmetry in Heq].
Qed.

(** Where the sum of the operand widths fits [unsigned], the verifier is the
    exact-sum test. *)
Lemma verifyConcatOp_exact (op : Operation) (l r : Value) (t : Ty) (wl wr wd : N) :
  getOperand op 0 = Ok l ->
  getOperand op 1 = Ok r ->
  getResultType op 0 = Ok t ->
  getElementTypeOrSelf (getType l) = bvN wl ->
  getElementTypeOrSelf (getType r) = bvN wr ->
  getElementTypeOrSelf t = bvN wd ->
  wl + wr < UINT_MODULUS ->
  verifyConcatOp (V := btor.BitVecType) op = Ok success <-> wd = wl + wr.
Proof.
  intros Hl Hr Ht Hwl Hwr Hwd Hfit.
  rewrite (verifyConcatOp_modular op l r t wl wr wd) by assumption.
  now rewrite N.mod_small.
Qed.

(** C4, at the widths where the claim and the code part ways: operands of
    widths [2^32 - 1] and [2] with a result of width [1] verify
    successfully, although the sum of the operand widths is not [1]. *)
Theorem verifyConcatOp_accepts_wrapped_sum :
  verifyConcatOp (V := btor.BitVecType)
    (operation "btor.concat"
       [value "a" (bvN 4294967295); value "b" (bvN 2)] [bvN 1] [])
  = Ok success
  /\ 4294967295 + 2 <> 1
  /\ 4294967295 < UINT_MODULUS.
Proof.
  split; [vm_compute; reflexivity|]. split; [discriminate | reflexivity].
Qed.

(* ================================================================= *)
(** ** InitArrayOp *)

Lemma verifyInitArrayOp_run (op : Operation) (i : Value) (a : btor.ArrayType) (iw : N) :
  getOperand op 0 = Ok i ->
  getResultType op 0 = Ok (ArrayTy a) ->
  getType i = bvN iw ->
  verifyInitArrayOp op
  = if btor.getWidth (btor.getElement a) =? iw
    then Ok success
    else Ok (failure (initWidthDiagnostic op iw)).
Proof.
  intros Hi Hr Hti. unfold verifyInitArrayOp. unfold_accessors.
  run_verifier.
  destruct (btor.getWidth (btor.getElement a) =? iw); reflexivity.
Qed.

Lemma initWidthDiagnostic_names (op : Operation) (iw : N) :
  names iw (initWidthDiagnostic op iw) = true.
Proof.
  unfold names, initWidthDiagnostic. cbn [existsb argNames].
  rewrite N.eqb_refl. now rewrite !orb_true_r.
Qed.

(** C2, as the code has it.  An [InitArrayOp] whose init value is a
    bit-vector of width [iw] and whose array has element width [ew] verifies
    successfully exactly when [iw = ew]; when they differ it fails with the
    op error "element initWidth of the array must match  bitwidth of given
    value: " followed by [iw].  That diagnostic is built from the operation
    name and [iw] alone: it names the init width, and the element width is
    not streamed into it. *)
Theorem verifyInitArrayOp_width_rule
    (op : Operation) (i : Value) (a : btor.ArrayType) (iw : N) :
  getOperand op 0 = Ok i ->
  getResultType op 0 = Ok (ArrayTy a) ->
  getType i = bvN iw ->
  (verifyInitArrayOp op = Ok success <-> iw = btor.getWidth (btor.getElement a))
  /\ (iw <> btor.getWidth (btor.getElement a) ->
      verifyInitArrayOp op = Ok (failure (initWidthDiagnostic op iw))
      /\ names iw (initWidthDiagnostic op iw) = true).
Proof.
  intros Hi Hr Hti. rewrite (verifyInitArrayOp_run op i a iw Hi Hr Hti).
  destruct (N.eqb_spec (btor.getWidth (btor.getElement a)) iw) as [Heq | Hne].
  - split; [split; [now intros _ | reflexivity] | intros Hd; now symmetry in Heq].
  - split; [split; [discriminate | intros Heq; now symmetry in Heq]|].
    intros _. split; [reflexivity | apply initWidthDiagnostic_names].
Qed.

Lemma verifyInitArrayOp_width_rule_witness :
  (verifyInitArrayOp
     (operation "btor.init_array" [value "v" (bvN 8)]
        [ArrayTy (btor.array (btor.bv 4) (btor.bv 8))] [])
   = Ok success <-> 8 = 8)
  /\ verifyInitArrayOp
       (operation "btor.init_array" [value "v" (bvN 8)]
          [ArrayTy (btor.array (btor.bv 4) (btor.bv 16))] [])
     = Ok (failure
             [DString "'"; DString "btor.init_array"; DString "' op ";
              DString "element initWidth of the array must match ";
              DString " bitwidth of given value: "; DUnsigned 8]).
Proof.
  split.
  - apply (verifyInitArrayOp_width_rule
             (operation "btor.init_array" [value "v" (bvN 8)]
                [ArrayTy (btor.array (btor.bv 4) (btor.bv 8))] [])
             (value "v" (bvN 8)) (btor.array (btor.bv 4) (btor.bv 8)) 8);
      reflexivity.
  - apply (verifyInitArrayOp_width_rule
             (operation "btor.init_array" [value "v" (bvN 8)]
                [ArrayTy (btor.array (btor.bv 4) (btor.bv 16))] [])
             (value "v" (bvN 8)) (btor.array (btor.bv 4) (btor.bv 16)) 8
             eq_refl eq_refl eq_refl).
    discriminate.
Defined.

(** C2 as stated fails on the spec's own example: with an 8-bit init value
    against element width 16 there is no failure diagnostic that names both
    8 and 16. *)
Lemma verifyInitArrayOp_diagnostic_omits_element_width :
  ~ (exists d,
        verifyInitArrayOp
          (operation "btor.init_array" [value "v" (bvN 8)]
             [ArrayTy (btor.array (btor.bv 4) (btor.bv 16))] [])
        = Ok (failure d)
        /\ names 8 d = true /\ names 16 d = true).
Proof.
  intros [d [Hrun [_ H16]]]. vm_compute in Hrun.
  injection Hrun as <-. vm_compute in H16. discriminate.
Qed.

(* ================================================================= *)
(** ** Shapes of the vector and memref encodings *)

Lemma verifyVectorInitArrayOp_run (op : Operation) (i : Value) (w : N) (len : Z) :
  getOperand op 0 = Ok i ->
  getType i = IntegerTy w ->
  getResultType op 0 = Ok (VectorTy [len] (IntegerTy w)) ->
  verifyVectorInitArrayOp op
  = if (Z.land len (sub64 len 1) =? 0)%Z then Ok success
    else Ok (failure (shapeDiagnostic op len)).
Proof.
  intros Hi Hti Hr. unfold verifyVectorInitArrayOp. unfold_accessors.
  run_verifier. rewrite N.eqb_refl. reduce_verifier.
  destruct (Z.land len (sub64 len 1) =? 0)%Z; reflexivity.
Qed.

Lemma verifyVectorReadOp_run (op : Operation) (b : Value) (w : N) (len : Z) :
  getOperand op 0 = Ok b ->
  getType b = VectorTy [len] (IntegerTy w) ->
  getResultType op 0 = Ok (IntegerTy w) ->
  verifyVectorReadOp op
  = if (Z.land len (sub64 len 1) =? 0)%Z then Ok success
    else Ok (failure (shapeDiagnostic op len)).
Proof.
  intros Hb Htb Hr. unfold verifyVectorReadOp. unfold_accessors.
  run_verifier. rewrite N.eqb_refl. reduce_verifier.
  destruct (Z.land len (sub64 len 1) =? 0)%Z; reflexivity.
Qed.

Lemma verifyMemRefReadOp_run (op : Operation) (b : Value) (w : N) (len : Z) :
  getOperand op 0 = Ok b ->
  getType b = MemRefTy [len] (IntegerTy w) ->
  getResultType op 0 = Ok (IntegerTy w) ->
  verifyMemRefReadOp op
  = if (Z.land len (sub64 len 1) =? 0)%Z then Ok success
    else Ok (failure (shapeDiagnostic op len)).
Proof.
  intros Hb Htb Hr. unfold verifyMemRefReadOp. unfold_accessors.
  run_verifier. rewrite N.eqb_refl. reduce_verifier.
  destruct (Z.land len (sub64 len 1) =? 0)%Z; reflexivity.
Qed.

(** The write verifiers look at the element width and at nothing else. *)
Lemma verifyVectorWriteOp_run (op : Operation) (v : Value) (w : N) (shape : list Z) :
  getOperand op 0 = Ok v ->
  getType v = IntegerTy w ->
  getResultType op 0 = Ok (VectorTy shape (IntegerTy w)) ->
  verifyVectorWriteOp op = Ok success.
Proof.
  intros Hv Htv Hr. unfold verifyVectorWriteOp. unfold_accessors.
  run_verifier. now rewrite N.eqb_refl.
Qed.

Lemma verifyMemRefWriteOp_run (op : Operation) (v : Value) (w : N) (shape : list Z) :
  getOperand op 0 = Ok v ->
  getType v = IntegerTy w ->
  getResultType op 0 = Ok (MemRefTy shape (IntegerTy w)) ->
  verifyMemRefWriteOp op = Ok success.
Proof.
  intros Hv Htv Hr. unfold verifyMemRefWriteOp. unfold_accessors.
  run_verifier. now rewrite N.eqb_refl.
Qed.

Lemma shape_verdict (op : Operation) (len : Z) :
  (0 < len <= INT64_MAX)%Z ->
  let verdict := if (Z.land len (sub64 len 1) =? 0)%Z then Ok success
                 else Ok (failure (shapeDiagnostic op len)) in
  (verdict = Ok success <-> isPowerOfTwo len)
  /\ (~ isPowerOfTwo len -> verdict = Ok (failure (shapeDiagnostic op len))).
Proof.
  intros Hlen verdict. subst verdict.
  pose proof (indicator_power_of_two len Hlen) as Hind.
  destruct (Z.eqb_spec (Z.land len (sub64 len 1)) 0) as [Hz | Hnz].
  - split; [split; [intros _; now apply Hind | reflexivity]|].
    intros Hnp. exfalso. apply Hnp. now apply Hind.
  - split; [split; [discriminate | intros Hp; exfalso; apply Hnz; now apply Hind]|].
    reflexivity.
Qed.

(** C1, as the code has it.  For a one-dimensional array of positive length
    [len] whose element width matches the value or result width,
    [VectorInitArrayOp], [VectorReadOp] and [MemRefReadOp] verify
    successfully exactly when [len] is a power of two, and otherwise fail
    with the op error "given shape: [len] has to be a power of two";
    [MemRefInitArrayOp] verifies successfully whatever its type. *)
Theorem power_of_two_shape_rule
    (vinit vread mread minit : Operation) (i vb mb : Value) (w : N) (len : Z) :
  getOperand vinit 0 = Ok i ->
  getType i = IntegerTy w ->
  getResultType vinit 0 = Ok (VectorTy [len] (IntegerTy w)) ->
  getOperand vread 0 = Ok vb ->
  getType vb = VectorTy [len] (IntegerTy w) ->
  getResultType vread 0 = Ok (IntegerTy w) ->
  getOperand mread 0 = Ok mb ->
  getType mb = MemRefTy [len] (IntegerTy w) ->
  getResultType mread 0 = Ok (IntegerTy w) ->
  (0 < len <= INT64_MAX)%Z ->
  (verifyVectorInitArrayOp vinit = Ok success <-> isPowerOfTwo len)
  /\ (verifyVectorReadOp vread = Ok success <-> isPowerOfTwo len)
  /\ (verifyMemRefReadOp mread = Ok success <-> isPowerOfTwo len)
  /\ (~ isPowerOfTwo len ->
      verifyVectorInitArrayOp vinit = Ok (failure (shapeDiagnostic vinit len))
      /\ verifyVectorReadOp vread = Ok (failure (shapeDiagnostic vread len))
      /\ verifyMemRefReadOp mread = Ok (failure (shapeDiagnostic mread len)))
  /\ verifyMemRefInitArrayOp minit = Ok success.
Proof.
  intros Hi Hti Hvr Hvb Htvb Hrr Hmb Htmb Hmr Hlen.
  rewrite (verifyVectorInitArrayOp_run vinit i w len Hi Hti Hvr).
  rewrite (verifyVectorReadOp_run vread vb w len Hvb Htvb Hrr).
  rewrite (verifyMemRefReadOp_run mread mb w len Hmb Htmb Hmr).
  destruct (shape_verdict vinit len Hlen) as [Hi1 Hi2].
  destruct (shape_verdict vread len Hlen) as [Hr1 Hr2].
  destruct (shape_verdict mread len Hlen) as [Hm1 Hm2].
  repeat split; try (apply Hi1); try (apply Hr1); try (apply Hm1); auto.
Qed.

Lemma four_is_power_of_two : isPowerOfTwo 4.
Proof. exists 2%Z. split; [lia | reflexivity]. Qed.

Lemma three_is_not_power_of_two : ~ isPowerOfTwo 3.
Proof.
  intros Hp. apply (land_pred_power_of_two 3 ltac:(lia)) in Hp. discriminate.
Qed.

Lemma power_of_two_shape_rule_witness :
  verifyVectorInitArrayOp
    (operation "btor.vector_init_array" [value "v" (IntegerTy 8)]
       [VectorTy [4%Z] (IntegerTy 8)] []) = Ok success
  /\ verifyVectorReadOp
       (operation "btor.vector_read"
          [value "m" (VectorTy [4%Z] (IntegerTy 8)); value "i" (IntegerTy 2)]
          [IntegerTy 8] []) = Ok success
  /\ verifyMemRefReadOp
       (operation "btor.memref_read"
          [value "m" (MemRefTy [4%Z] (IntegerTy 8)); value "i" (IntegerTy 2)]
          [IntegerTy 8] []) = Ok success.
Proof.
  destruct (power_of_two_shape_rule
              (operation "btor.vector_init_array" [value "v" (IntegerTy 8)]
                 [VectorTy [4%Z] (IntegerTy 8)] [])
              (operation "btor.vector_read"
                 [value "m" (VectorTy [4%Z] (IntegerTy 8)); value "i" (IntegerTy 2)]
                 [IntegerTy 8] [])
              (operation "btor.memref_read"
                 [value "m" (MemRefTy [4%Z] (IntegerTy 8)); value "i" (IntegerTy 2)]
                 [IntegerTy 8] [])
              (operation "btor.memref_init_array" []
                 [MemRefTy [4%Z] (IntegerTy 8)] [])
              (value "v" (IntegerTy 8))
              (value "m" (VectorTy [4%Z] (IntegerTy 8)))
              (value "m" (MemRefTy [4%Z] (IntegerTy 8)))
              8 4%Z
              eq_refl eq_refl eq_refl eq_refl eq_refl eq_refl eq_refl eq_refl
              eq_refl ltac:(unfold INT64_MAX; lia))
    as [Hinit [Hread [Hmem _]]].
  split; [apply Hinit | split; [apply Hread | apply Hmem]];
    exact four_is_power_of_two.
Defined.

(** Length 3 is turned down by the three verifiers that test the shape. *)
Example length_three_rejected :
  verifyVectorInitArrayOp
    (operation "btor.vector_init_array" [value "v" (IntegerTy 8)]
       [VectorTy [3%Z] (IntegerTy 8)] [])
  = Ok (failure [DString "'"; DString "btor.vector_init_array"; DString "' op ";
                 DString "given shape: "; DInteger 3;
                 DString " has to be a power of two"])
  /\ verifyVectorReadOp
       (operation "btor.vector_read"
          [value "m" (VectorTy [3%Z] (IntegerTy 8)); value "i" (IntegerTy 2)]
          [IntegerTy 8] [])
     = Ok (failure [DString "'"; DString "btor.vector_read"; DString "' op ";
                    DString "given shape: "; DInteger 3;
                    DString " has to be a power of two"])
  /\ verifyMemRefReadOp
       (operation "btor.memref_read"
          [value "m" (MemRefTy [3%Z] (IntegerTy 8)); value "i" (IntegerTy 2)]
          [IntegerTy 8] [])
     = Ok (failure [DString "'"; DString "btor.memref_read"; DString "' op ";
                    DString "given shape: "; DInteger 3;
                    DString " has to be a power of two"]).
Proof. split; [|split]; vm_compute; reflexivity. Qed.

(** C1 as stated fails on the spec's own example: over length 3, which is
    not a power of two, [VectorWriteOp] verifies successfully, and so do the
    memref init and write operations.  It also fails at length 0, which is
    not a power of two either and which the shape test lets through. *)
Lemma length_three_accepted :
  ~ isPowerOfTwo 3
  /\ verifyVectorWriteOp
       (operation "btor.vector_write"
          [value "v" (IntegerTy 8); value "m" (VectorTy [3%Z] (IntegerTy 8));
           value "i" (IntegerTy 2)]
          [VectorTy [3%Z] (IntegerTy 8)] []) = Ok success
  /\ verifyMemRefInitArrayOp
       (operation "btor.memref_init_array" [] [MemRefTy [3%Z] (IntegerTy 8)] [])
     = Ok success
  /\ verifyMemRefWriteOp
       (operation "btor.memref_write"
          [value "v" (IntegerTy 8); value "m" (MemRefTy [3%Z] (IntegerTy 8));
           value "i" (IntegerTy 2)]
          [MemRefTy [3%Z] (IntegerTy 8)] []) = Ok success
  /\ ~ isPowerOfTwo 0
  /\ verifyMemRefReadOp
       (operation "btor.memref_read"
          [value "m" (MemRefTy [0%Z] (IntegerTy 8)); value "i" (IntegerTy 1)]
          [IntegerTy 8] []) = Ok success.
Proof.
  split; [exact three_is_not_power_of_two|].
  split; [|split; [|split; [|split; [exact zero_not_power_of_two|]]]];
    vm_compute; reflexivity.
Qed.

(** C10. With a declared length of 0 and matching element widths,
    [VectorInitArrayOp], [VectorReadOp] and [MemRefReadOp] verify
    successfully: [0 & (0 - 1)] is 0, so the shape test passes although 0
    is not a power of two. *)
Theorem zero_length_accepted
    (vinit vread mread : Operation) (i vb mb : Value) (w : N) :
  getOperand vinit 0 = Ok i ->
  getType i = IntegerTy w ->
  getResultType vinit 0 = Ok (VectorTy [0%Z] (IntegerTy w)) ->
  getOperand vread 0 = Ok vb ->
  getType vb = VectorTy [0%Z] (IntegerTy w) ->
  getResultType vread 0 = Ok (IntegerTy w) ->
  getOperand mread 0 = Ok mb ->
  getType mb = MemRefTy [0%Z] (IntegerTy w) ->
  getResultType mread 0 = Ok (IntegerTy w) ->
  Z.land 0 (sub64 0 1) = 0%Z
  /\ ~ isPowerOfTwo 0
  /\ verifyVectorInitArrayOp vinit = Ok success
  /\ verifyVectorReadOp vread = Ok success
  /\ verifyMemRefReadOp mread = Ok success.
Proof.
  intros Hi Hti Hvr Hvb Htvb Hrr Hmb Htmb Hmr.
  rewrite (verifyVectorInitArrayOp_run vinit i w 0 Hi Hti Hvr).
  rewrite (verifyVectorReadOp_run vread vb w 0 Hvb Htvb Hrr).
  rewrite (verifyMemRefReadOp_run mread mb w 0 Hmb Htmb Hmr).
  split; [reflexivity|]. split; [exact zero_not_power_of_two|].
  split; [|split]; reflexivity.
Qed.

Lemma zero_length_accepted_witness :
  verifyVectorInitArrayOp
    (operation "btor.vector_init_array" [value "v" (IntegerTy 8)]
       [VectorTy [0%Z] (IntegerTy 8)] []) = Ok success
  /\ verifyVectorReadOp
       (operation "btor.vector_read"
          [value "m" (VectorTy [0%Z] (IntegerTy 8)); value "i" (IntegerTy 2)]
          [IntegerTy 8] []) = Ok success
  /\ verifyMemRefReadOp
       (operation "btor.memref_read"
          [value "m" (MemRefTy [0%Z] (IntegerTy 8)); value "i" (IntegerTy 2)]
          [IntegerTy 8] []) = Ok success.
Proof.
  destruct (zero_length_accepted
              (operation "btor.vector_init_array" [value "v" (IntegerTy 8)]
                 [VectorTy [0%Z] (IntegerTy 8)] [])
              (operation "btor.vector_read"
                 [value "m" (VectorTy [0%Z] (IntegerTy 8)); value "i" (IntegerTy 2)]
                 [IntegerTy 8] [])
              (operation "btor.memref_read"
                 [value "m" (MemRefTy [0%Z] (IntegerTy 8)); value "i" (IntegerTy 2)]
                 [IntegerTy 8] [])
              (value "v" (IntegerTy 8))
              (value "m" (VectorTy [0%Z] (IntegerTy 8)))
              (value "m" (MemRefTy [0%Z] (IntegerTy 8)))
              8
              eq_refl eq_refl eq_refl eq_refl eq_refl eq_refl eq_refl eq_refl
              eq_refl)
    as [_ [_ [Hinit [Hread Hmem]]]].
  split; [exact Hinit | split; [exact Hread | exact Hmem]].
Defined.

(* ================================================================= *)
(** ** The text of IteOp *)

Lemma resolveOperand_in_scope (v : Value) (p : Parser) :
  inScope (scope p) v ->
  resolveOperand (Value_name v) (getType v) p = Some (v, p).
Proof.
  unfold inScope, resolveOperand. intros ->.
  destruct (Ty_eq_dec (getType v) (getType v)) as [_ | Hne]; [|contradiction].
  now destruct v.
Qed.

(** The type a resolved operand carries is the type the parser asked for. *)
Lemma resolveOperand_type (name : string) (t : Ty) (p p' : Parser) (v : Value) :
  resolveOperand name t p = Some (v, p') -> v = value name t.
Proof.
  unfold resolveOperand. intros Hres.
  destruct (lookupScope name (scope p)) as [t'|].
  - destruct (Ty_eq_dec t' t); [now injection Hres as <- _ | discriminate].
  - now injection Hres as <- _.
Qed.

(** An [IteOp] whose condition has the default type, and that carries no
    attributes, is read back from its printed text as it was. *)
Lemma IteOp_roundtrip_default_condition
    (name : string) (c a b : Value) (t : Ty) (sc : list (string * Ty)) :
  getType c = bvN 1 -> getType a = t -> getType b = t ->
  inScope sc c -> inScope sc a -> inScope sc b ->
  exists text st,
    printIteOp (operation name [c; a; b] [t] []) = Ok text
    /\ parseIteOp emptyState (parser text sc) = Some (st, parser [] sc)
    /\ create name st = operation name [c; a; b] [t] [].
Proof.
  destruct c as [nc tc], a as [na ta], b as [nb tb].
  unfold inScope. cbn [getType Value_name]. intros -> -> -> Sc Sa Sb.
  eexists. eexists. split; [reflexivity|].
  unfold parseIteOp, parseColonType, resolveOperands, resolveEach, resolveOperand,
    pbind, pret.
  cbn. rewrite Sc.
  destruct (Ty_eq_dec (bvN 1) (bvN 1)) as [_ | Hne]; [|contradiction].
  cbn. rewrite Sa.
  destruct (Ty_eq_dec t t) as [_ | Hne]; [|contradiction].
  cbn. rewrite Sb.
  destruct (Ty_eq_dec t t) as [_ | Hne]; [|contradiction].
  split; reflexivity.
Qed.

(** Whatever the scope, the text [printIteOp] writes for an [IteOp] whose
    condition is not of width 1 is never read back with that condition:
    the printer leaves the condition type out, so the parser resolves the
    condition at the default type. *)
Lemma IteOp_condition_type_lost
    (name : string) (c a b : Value) (t : Ty) (attrs : NamedAttrList)
    (sc : list (string * Ty)) (text : list Token)
    (st : OperationState) (p' : Parser) :
  getType c <> bvN 1 ->
  printIteOp (operation name [c; a; b] [t] attrs) = Ok text ->
  parseIteOp emptyState (parser text sc) = Some (st, p') ->
  nth_error (operands st) 0 = Some (value (Value_name c) (bvN 1))
  /\ operands st <> [c; a; b].
Proof.
  intros Hc Hprint Hparse. injection Hprint as <-.
  unfold parseIteOp, parseColonType, resolveOperands, pbind, pret in Hparse.
  cbn in Hparse. unfold pbind, pret in Hparse.
  destruct (resolveOperand (Value_name c) (bvN 1) (parser [] sc))
    as [[v p1]|] eqn:Hv; [|discriminate].
  apply resolveOperand_type in Hv. subst v.
  destruct (resolveOperand (Value_name a) t p1) as [[va p2]|]; [|discriminate].
  destruct (resolveOperand (Value_name b) t p2) as [[vb p3]|]; [|discriminate].
  injection Hparse as <- _. cbn. split; [reflexivity|].
  intros Heq. injection Heq as Heq _ _. apply Hc. now rewrite <- Heq.
Qed.

(** C3, on an [IteOp] with a width-8 condition over width-8 operands, all
    three defined with those types: the printed text carries the result type
    only, and parsing it back fails, the condition being asked for at
    width 1. *)
Theorem IteOp_masked_roundtrip_fails :
  printIteOp
    (operation "btor.ite"
       [value "c" (bvN 8); value "a" (bvN 8); value "b" (bvN 8)] [bvN 8] [])
  = Ok [percent_identifier "c"; comma; percent_identifier "a"; comma;
        percent_identifier "b"; colon; type_token (bvN 8)]
  /\ parseIteOp emptyState
       (parser [percent_identifier "c"; comma; percent_identifier "a"; comma;
                percent_identifier "b"; colon; type_token (bvN 8)]
          [("c", bvN 8); ("a", bvN 8); ("b", bvN 8)])
     = None
  /\ (exists st p',
        parseIteOp emptyState
          (parser [percent_identifier "c"; comma; percent_identifier "a"; comma;
                   percent_identifier "b"; colon; type_token (bvN 8);
                   comma; type_token (bvN 8)]
             [("c", bvN 8); ("a", bvN 8); ("b", bvN 8)])
        = Some (st, p')
        /\ create "btor.ite" st
           = operation "btor.ite"
               [value "c" (bvN 8); value "a" (bvN 8); value "b" (bvN 8)]
               [bvN 8] []).
Proof.
  split; [reflexivity|]. split; [vm_compute; reflexivity|].
  eexists. eexists. split; vm_compute; reflexivity.
Qed.

(* ================================================================= *)
(** ** The text of the overflow operations *)

(** C7. Whatever text [parseBinaryOverflowOp] accepts, the only result type
    it adds is the bit-vector type of width 1, so an overflow operation
    parsed from text has exactly that result type; and it does accept the
    two-operand form over any operand type [t], width 32 included, resolving
    both operands at [t]. *)
Theorem parseBinaryOverflowOp_result_type :
  (forall (result : OperationState) (p p' : Parser) (st : OperationState),
      parseBinaryOverflowOp result p = Some (st, p') ->
      types st = (types result ++ [bvN 1])%list)
  /\ (forall (x y : Value) (t : Ty) (sc : list (string * Ty)),
         getType x = t -> getType y = t ->
         inScope sc x -> inScope sc y ->
         exists st,
           parseBinaryOverflowOp emptyState
             (parser [percent_identifier (Value_name x); comma;
                      percent_identifier (Value_name y); colon; type_token t] sc)
           = Some (st, parser [] sc)
           /\ types st = [bvN 1]
           /\ operands st = [x; y]).
Proof.
  split.
  - intros result p p' st Hparse.
    unfold parseBinaryOverflowOp, parseColonType, resolveOperands, pbind, pret, pfail
      in Hparse.
    destruct (parseOperandList 2 p) as [[ns p1]|]; [|discriminate].
    destruct (parseOptionalAttrDict (attributes result) p1) as [[attrs p2]|];
      [|discriminate].
    destruct (parseColon p2) as [[[] p3]|]; [|discriminate].
    destruct (parseType p3) as [[t p4]|]; [|discriminate].
    destruct (negb (Nat.eqb (List.length ns) (List.length [t; t])));
      cbv beta in Hparse; [discriminate|].
    destruct (resolveEach ns [t; t] p4) as [[vs p5]|]; [|discriminate].
    now injection Hparse as <- _.
  - intros [nx tx] [ny ty] t sc. unfold inScope. cbn [getType Value_name].
    intros -> -> Sx Sy. eexists.
    unfold parseBinaryOverflowOp, parseColonType, resolveOperands, resolveEach,
      resolveOperand, pbind, pret.
    cbn. rewrite Sx.
    destruct (Ty_eq_dec t t) as [_ | Hne]; [|contradiction].
    cbn. rewrite Sy.
    destruct (Ty_eq_dec t t) as [_ | Hne]; [|contradiction].
    split; [reflexivity|]. split; reflexivity.
Qed.

Lemma parseBinaryOverflowOp_result_type_witness :
  exists st,
    parseBinaryOverflowOp emptyState
      (parser [percent_identifier "x"; comma; percent_identifier "y"; colon;
               type_token (bvN 32)]
         [("x", bvN 32); ("y", bvN 32)])
    = Some (st, parser [] [("x", bvN 32); ("y", bvN 32)])
    /\ types st = [bvN 1]
    /\ operands st = [value "x" (bvN 32); value "y" (bvN 32)].
Proof.
  destruct parseBinaryOverflowOp_result_type as [_ Haccepts].
  apply (Haccepts (value "x" (bvN 32)) (value "y" (bvN 32)) (bvN 32)
           [("x", bvN 32); ("y", bvN 32)]); reflexivity.
Defined.

(* ================================================================= *)
(** * Further properties of the custom syntax *)

(** ** Proof steps shared by the text lemmas *)

#[local] Arguments Ty_eq_dec : simpl never.

Ltac unfold_parsers :=
  unfold parseBinaryOverflowOp, parseUnaryDifferentResultOp, parseSliceOp,
    parseConcatOp, parseIteOp, parseIteWriteInPlaceOp, parseInitArrayOp,
    parseReadOp, parseWriteOp, parseVectorInitArrayOp, parseMemRefInitArrayOp,
    parseColonType, parseTypeAs, parseOptionalCommaInChain, resolveOperands,
    resolveEach, resolveOperand, pbind, pret, pfail.

Ltac resolve_in_scope :=
  repeat (cbn;
          first
            [ match goal with
              | H : lookupScope ?n ?sc = Some _ |- context [lookupScope ?n ?sc] =>
                  rewrite H
              end
            | match goal with
              | |- context [Ty_eq_dec ?t ?t] =>
                  destruct (Ty_eq_dec t t) as [_ | ?Hne]; [|contradiction]
              end ]);
  cbn.

Ltac open_values :=
  repeat match goal with
         | v : Value |- _ => destruct v as [? ?]
         end;
  unfold inScope in *; cbn [getType Value_name] in *; subst.

(** The operands a [resolveOperands] call hands back are the names it was
    given, each at the type it was given. *)
Lemma resolveEach_values (ns : list string) :
  forall (ts : list Ty) (p p' : Parser) (vs : list Value),
    resolveEach ns ts p = Some (vs, p') ->
    vs = map (fun nt => value (fst nt) (snd nt)) (combine ns ts).
Proof.
  induction ns as [|n ns IH]; intros ts p p' vs Hres.
  - cbn in Hres. unfold pret in Hres. now injection Hres as <- _.
  - destruct ts as [|t ts].
    + cbn in Hres. unfold pret in Hres. now injection Hres as <- _.
    + cbn in Hres. unfold pbind, pret in Hres.
      destruct (resolveOperand n t p) as [[v p1]|] eqn:Hv; [|discriminate].
      destruct (resolveEach ns ts p1) as [[vs' p2]|] eqn:Hvs; [|discriminate].
      injection Hres as <- _. apply resolveOperand_type in Hv. subst v.
      cbn. f_equal. exact (IH ts p1 p2 vs' Hvs).
Qed.

(** Reading back a printed operand list. *)
Lemma operandRun_printOperands (v : Value) (vs : list Value) (rest : list Token) :
  match rest with comma :: _ => False | _ => True end ->
  operandRun (printOperands (v :: vs) ++ rest)
  = Some (map Value_name (v :: vs), rest).
Proof.
  intros Hrest. revert v. induction vs as [|w vs IH]; intros v.
  - cbn. destruct rest as [|[] rest]; try reflexivity. contradiction.
  - change (printOperands (v :: w :: vs))
      with (percent_identifier (Value_name v) :: comma :: printOperands (w :: vs)).
    cbn [app operandRun]. rewrite (IH w). reflexivity.
Qed.

(* ================================================================= *)
(** ** Overflow and unary operations *)

(** X1. An overflow operation over two operands of one type, with a width-1
    result and any attribute dictionary, is read back from the text
    [printBinaryOverflowOp] writes exactly as it was. *)
Theorem BinaryOverflowOp_roundtrip
    (name : string) (a b : Value) (attrs : NamedAttrList) (sc : list (string * Ty)) :
  getType b = getType a ->
  inScope sc a -> inScope sc b ->
  exists text st,
    printBinaryOverflowOp (operation name [a; b] [bvN 1] attrs) = Ok text
    /\ parseBinaryOverflowOp emptyState (parser text sc) = Some (st, parser [] sc)
    /\ create name st = operation name [a; b] [bvN 1] attrs.
Proof.
  intros Hty Sa Sb. open_values.
  eexists. eexists. split; [reflexivity|].
  destruct attrs as [|at1 attrs]; unfold_parsers; resolve_in_scope;
    split; reflexivity.
Qed.

Lemma BinaryOverflowOp_roundtrip_witness :
  exists text st,
    printBinaryOverflowOp
      (operation "btor.saddo" [value "x" (bvN 32); value "y" (bvN 32)] [bvN 1]
         [("tag", UnitAttr)]) = Ok text
    /\ parseBinaryOverflowOp emptyState
         (parser text [("x", bvN 32); ("y", bvN 32)])
       = Some (st, parser [] [("x", bvN 32); ("y", bvN 32)])
    /\ create "btor.saddo" st
       = operation "btor.saddo" [value "x" (bvN 32); value "y" (bvN 32)] [bvN 1]
           [("tag", UnitAttr)].
Proof.
  apply (BinaryOverflowOp_roundtrip "btor.saddo"
           (value "x" (bvN 32)) (value "y" (bvN 32)) [("tag", UnitAttr)]
           [("x", bvN 32); ("y", bvN 32)]); reflexivity.
Defined.

(** X2. The printed text of an overflow operation carries the type of the
    first operand only: when the second operand, defined before the text,
    has another type, the text is not read back at all. *)
Theorem BinaryOverflowOp_second_type_lost
    (name : string) (a b : Value) (r : Ty) (attrs : NamedAttrList)
    (sc : list (string * Ty)) (text : list Token) :
  getType b <> getType a ->
  inScope sc a -> inScope sc b ->
  printBinaryOverflowOp (operation name [a; b] [r] attrs) = Ok text ->
  parseBinaryOverflowOp emptyState (parser text sc) = None.
Proof.
  intros Hty Sa Sb Hprint. open_values. injection Hprint as <-.
  destruct attrs as [|at1 attrs]; unfold_parsers; cbn; rewrite Sa;
    (destruct (Ty_eq_dec _ _) as [_ | Hne]; [|contradiction]);
    cbn; rewrite Sb;
    (destruct (Ty_eq_dec _ _) as [Heq | _]; [contradiction | reflexivity]).
Qed.

Lemma BinaryOverflowOp_second_type_lost_witness :
  parseBinaryOverflowOp emptyState
    (parser [percent_identifier "x"; comma; percent_identifier "y"; colon;
             type_token (bvN 32)]
       [("x", bvN 32); ("y", bvN 16)])
  = None.
Proof.
  apply (BinaryOverflowOp_second_type_lost "btor.saddo"
           (value "x" (bvN 32)) (value "y" (bvN 16)) (bvN 1) []
           [("x", bvN 32); ("y", bvN 16)]);
    [discriminate | reflexivity | reflexivity | reflexivity].
Defined.

(** X3. [parseUnaryDifferentResultOp] gives every operation it builds the
    width-1 result type, whatever the operand type; and a one-operand
    operation with a width-1 result is read back from the text
    [printBtorUnaryOp] writes exactly as it was. *)
Theorem UnaryDifferentResultOp_roundtrip :
  (forall (result : OperationState) (p p' : Parser) (st : OperationState),
      parseUnaryDifferentResultOp result p = Some (st, p') ->
      types st = (types result ++ [bvN 1])%list)
  /\ (forall (name : string) (a : Value) (attrs : NamedAttrList)
             (sc : list (string * Ty)),
         inScope sc a ->
         exists text st,
           printBtorUnaryOp (operation name [a] [bvN 1] attrs) = Ok text
           /\ parseUnaryDifferentResultOp emptyState (parser text sc)
              = Some (st, parser [] sc)
           /\ create name st = operation name [a] [bvN 1] attrs).
Proof.
  split.
  - intros result p p' st Hparse.
    unfold parseUnaryDifferentResultOp, parseColonType, resolveOperands, pbind,
      pret, pfail in Hparse.
    destruct (parseOperandList 1 p) as [[ns p1]|]; [|discriminate].
    destruct (parseOptionalAttrDict (attributes result) p1) as [[attrs p2]|];
      [|discriminate].
    destruct (parseColon p2) as [[[] p3]|]; [|discriminate].
    destruct (parseType p3) as [[t p4]|]; [|discriminate].
    destruct (negb (Nat.eqb (List.length ns) (List.length [t])));
      cbv beta in Hparse; [discriminate|].
    destruct (resolveEach ns [t] p4) as [[vs p5]|]; [|discriminate].
    now injection Hparse as <- _.
  - intros name a attrs sc Sa. open_values.
    eexists. eexists. split; [reflexivity|].
    destruct attrs as [|at1 attrs]; unfold_parsers; resolve_in_scope;
      split; reflexivity.
Qed.

Lemma UnaryDifferentResultOp_roundtrip_witness :
  exists text st,
    printBtorUnaryOp (operation "btor.redor" [value "x" (bvN 8)] [bvN 1] []) = Ok text
    /\ parseUnaryDifferentResultOp emptyState (parser text [("x", bvN 8)])
       = Some (st, parser [] [("x", bvN 8)])
    /\ create "btor.redor" st = operation "btor.redor" [value "x" (bvN 8)] [bvN 1] [].
Proof.
  destruct UnaryDifferentResultOp_roundtrip as [_ Hround].
  apply (Hround "btor.redor" (value "x" (bvN 8)) [] [("x", bvN 8)]).
  reflexivity.
Defined.

(* ================================================================= *)
(** ** SliceOp and ConcatOp *)

(** X4. A slice whose three operands share the type of the first is read
    back from the text [printSliceOp] writes exactly as it was, whatever its
    result type and attributes. *)
Theorem SliceOp_roundtrip
    (name : string) (a b c : Value) (r : Ty) (attrs : NamedAttrList)
    (sc : list (string * Ty)) :
  getType b = getType a -> getType c = getType a ->
  inScope sc a -> inScope sc b -> inScope sc c ->
  exists text st,
    printSliceOp (operation name [a; b; c] [r] attrs) = Ok text
    /\ parseSliceOp emptyState (parser text sc) = Some (st, parser [] sc)
    /\ create name st = operation name [a; b; c] [r] attrs.
Proof.
  intros Hb Hc Sa Sb Sc. open_values.
  eexists. eexists. split; [reflexivity|].
  destruct attrs as [|at1 attrs]; unfold_parsers; resolve_in_scope;
    split; reflexivity.
Qed.

Lemma SliceOp_roundtrip_witness :
  exists text st,
    printSliceOp
      (operation "btor.slice"
         [value "x" (bvN 8); value "hi" (bvN 8); value "lo" (bvN 8)] [bvN 4] [])
    = Ok text
    /\ parseSliceOp emptyState
         (parser text [("x", bvN 8); ("hi", bvN 8); ("lo", bvN 8)])
       = Some (st, parser [] [("x", bvN 8); ("hi", bvN 8); ("lo", bvN 8)])
    /\ create "btor.slice" st
       = operation "btor.slice"
           [value "x" (bvN 8); value "hi" (bvN 8); value "lo" (bvN 8)] [bvN 4] [].
Proof.
  apply (SliceOp_roundtrip "btor.slice"
           (value "x" (bvN 8)) (value "hi" (bvN 8)) (value "lo" (bvN 8))
           (bvN 4) [] [("x", bvN 8); ("hi", bvN 8); ("lo", bvN 8)]);
    reflexivity.
Defined.

(** X5. A concatenation is read back from the text [printConcatOp] writes
    exactly as it was, whatever the types of its operands and result and
    whatever its attributes: the text carries all three types. *)
Theorem ConcatOp_roundtrip
    (name : string) (a b : Value) (r : Ty) (attrs : NamedAttrList)
    (sc : list (string * Ty)) :
  inScope sc a -> inScope sc b ->
  exists text st,
    printConcatOp (operation name [a; b] [r] attrs) = Ok text
    /\ parseConcatOp emptyState (parser text sc) = Some (st, parser [] sc)
    /\ create name st = operation name [a; b] [r] attrs.
Proof.
  intros Sa Sb. open_values.
  eexists. eexists. split; [reflexivity|].
  destruct attrs as [|at1 attrs]; unfold_parsers; resolve_in_scope;
    split; reflexivity.
Qed.

Lemma ConcatOp_roundtrip_witness :
  exists text st,
    printConcatOp
      (operation "btor.concat" [value "x" (bvN 8); value "y" (bvN 4)] [bvN 12] [])
    = Ok text
    /\ parseConcatOp emptyState (parser text [("x", bvN 8); ("y", bvN 4)])
       = Some (st, parser [] [("x", bvN 8); ("y", bvN 4)])
    /\ create "btor.concat" st
       = operation "btor.concat" [value "x" (bvN 8); value "y" (bvN 4)] [bvN 12] [].
Proof.
  apply (ConcatOp_roundtrip "btor.concat"
           (value "x" (bvN 8)) (value "y" (bvN 4)) (bvN 12) []
           [("x", bvN 8); ("y", bvN 4)]); reflexivity.
Defined.

(** X6. The commas between the types are not optional, although the parsers
    read them with [parseOptionalComma]: a slice, a concatenation or a read
    whose type list leaves a comma out is turned down, whatever the operands,
    the types and the scope. *)
Theorem type_list_commas_required
    (x y z : string) (t1 t2 t3 : Ty) (a : btor.ArrayType) (w : btor.BitVecType)
    (sc : list (string * Ty)) :
  parseSliceOp emptyState
    (parser [percent_identifier x; comma; percent_identifier y; comma;
             percent_identifier z; colon; type_token t1; type_token t2] sc) = None
  /\ parseConcatOp emptyState
       (parser [percent_identifier x; comma; percent_identifier y; colon;
                type_token t1; type_token t2; comma; type_token t3] sc) = None
  /\ parseConcatOp emptyState
       (parser [percent_identifier x; comma; percent_identifier y; colon;
                type_token t1; comma; type_token t2; type_token t3] sc) = None
  /\ parseReadOp emptyState
       (parser [percent_identifier x; l_square; percent_identifier y; r_square;
                colon; type_token (ArrayTy a); type_token (BitVecTy w)] sc) = None.
Proof.
  split; [|split; [|split]]; reflexivity.
Qed.

(** X7. The operand count is checked: a text that lists any other number of
    operands than the three of [parseIteOp] and [parseSliceOp], the two of
    [parseBinaryOverflowOp] and [parseConcatOp], or the one of
    [parseUnaryDifferentResultOp] is turned down, whatever follows the colon
    and whatever the scope. *)
Theorem operand_count_checked
    (vs : list Value) (rest : list Token) (sc : list (string * Ty)) :
  let text := (printOperands vs ++ colon :: rest)%list in
  (List.length vs <> 3%nat ->
   parseIteOp emptyState (parser text sc) = None
   /\ parseSliceOp emptyState (parser text sc) = None)
  /\ (List.length vs <> 2%nat ->
      parseBinaryOverflowOp emptyState (parser text sc) = None
      /\ parseConcatOp emptyState (parser text sc) = None)
  /\ (List.length vs <> 1%nat ->
      parseUnaryDifferentResultOp emptyState (parser text sc) = None).
Proof.
  intros text.
  assert (Hlist : forall n : nat,
             List.length vs <> n -> n <> 0%nat ->
             parseOperandList n (parser text sc) = None).
  { intros n Hlen Hn. unfold parseOperandList, text.
    destruct vs as [|v vs].
    - cbn. destruct n; [contradiction | reflexivity].
    - pose proof (operandRun_printOperands v vs (colon :: rest) I) as Hrun.
      destruct vs as [|w vs]; cbn [printOperands app tokens] in *;
        rewrite Hrun, length_map;
        match goal with
        | |- context [Nat.eqb ?a ?b] =>
            destruct (Nat.eqb_spec a b) as [Heq | _];
            [contradiction | reflexivity]
        end. }
  split; [|split]; intros Hlen.
  - split; [unfold parseIteOp | unfold parseSliceOp];
      unfold pbind; now rewrite (Hlist 3%nat Hlen).
  - split; [unfold parseBinaryOverflowOp | unfold parseConcatOp];
      unfold pbind; now rewrite (Hlist 2%nat Hlen).
  - unfold parseUnaryDifferentResultOp, pbind. now rewrite (Hlist 1%nat Hlen).
Qed.

Lemma operand_count_checked_witness :
  parseBinaryOverflowOp emptyState
    (parser [percent_identifier "x"; comma; percent_identifier "y"; comma;
             percent_identifier "z"; colon; type_token (bvN 8)] [])
  = None.
Proof.
  destruct (operand_count_checked
              [value "x" (bvN 8); value "y" (bvN 8); value "z" (bvN 8)]
              [type_token (bvN 8)] [])
    as [_ [Htwo _]].
  apply Htwo. discriminate.
Defined.

(* ================================================================= *)
(** ** IteOp, continued *)

(** X8. [printIteOp] writes no attribute dictionary: an [IteOp] with a
    width-1 condition is read back from its printed text with its operands
    and its result type, and with an empty attribute dictionary whatever
    attributes it had. *)
Theorem IteOp_attributes_not_printed
    (name : string) (c a b : Value) (t : Ty) (attrs : NamedAttrList)
    (sc : list (string * Ty)) :
  getType c = bvN 1 -> getType a = t -> getType b = t ->
  inScope sc c -> inScope sc a -> inScope sc b ->
  exists text st,
    printIteOp (operation name [c; a; b] [t] attrs) = Ok text
    /\ parseIteOp emptyState (parser text sc) = Some (st, parser [] sc)
    /\ create name st = operation name [c; a; b] [t] [].
Proof.
  intros Hc Ha Hb Sc Sa Sb. open_values.
  eexists. eexists. split; [reflexivity|].
  unfold_parsers; resolve_in_scope; split; reflexivity.
Qed.

Lemma IteOp_attributes_not_printed_witness :
  exists text st,
    printIteOp
      (operation "btor.ite"
         [value "c" (bvN 1); value "a" (bvN 8); value "b" (bvN 8)] [bvN 8]
         [("tag", UnitAttr)]) = Ok text
    /\ parseIteOp emptyState
         (parser text [("c", bvN 1); ("a", bvN 8); ("b", bvN 8)])
       = Some (st, parser [] [("c", bvN 1); ("a", bvN 8); ("b", bvN 8)])
    /\ create "btor.ite" st
       = operation "btor.ite"
           [value "c" (bvN 1); value "a" (bvN 8); value "b" (bvN 8)] [bvN 8] [].
Proof.
  apply (IteOp_attributes_not_printed "btor.ite"
           (value "c" (bvN 1)) (value "a" (bvN 8)) (value "b" (bvN 8)) (bvN 8)
           [("tag", UnitAttr)] [("c", bvN 1); ("a", bvN 8); ("b", bvN 8)]);
    reflexivity.
Defined.

(** X9. [parseIteOp] does read the masked form: from the text
    [%c, %a, %b {attrs} : conditionType, resultType] it builds the [IteOp]
    whose condition has type [conditionType] and whose other operands and
    result have type [resultType], with the attributes of the text. *)
Theorem parseIteOp_explicit_condition_type
    (name : string) (c a b : Value) (t : Ty) (attrs : NamedAttrList)
    (sc : list (string * Ty)) :
  getType a = t -> getType b = t ->
  inScope sc c -> inScope sc a -> inScope sc b ->
  exists st,
    parseIteOp emptyState
      (parser ([percent_identifier (Value_name c); comma;
                percent_identifier (Value_name a); comma;
                percent_identifier (Value_name b)]
               ++ printOptionalAttrDict attrs
               ++ [colon; type_token (getType c); comma; type_token t]) sc)
    = Some (st, parser [] sc)
    /\ create name st = operation name [c; a; b] [t] attrs.
Proof.
  intros Ha Hb Sc Sa Sb. open_values.
  eexists.
  destruct attrs as [|at1 attrs]; unfold_parsers; resolve_in_scope;
    split; reflexivity.
Qed.

Lemma parseIteOp_explicit_condition_type_witness :
  exists st,
    parseIteOp emptyState
      (parser [percent_identifier "c"; comma; percent_identifier "a"; comma;
               percent_identifier "b"; colon; type_token (bvN 8); comma;
               type_token (bvN 8)]
         [("c", bvN 8); ("a", bvN 8); ("b", bvN 8)])
    = Some (st, parser [] [("c", bvN 8); ("a", bvN 8); ("b", bvN 8)])
    /\ create "btor.ite" st
       = operation "btor.ite"
           [value "c" (bvN 8); value "a" (bvN 8); value "b" (bvN 8)] [bvN 8] [].
Proof.
  apply (parseIteOp_explicit_condition_type "btor.ite"
           (value "c" (bvN 8)) (value "a" (bvN 8)) (value "b" (bvN 8)) (bvN 8) []
           [("c", bvN 8); ("a", bvN 8); ("b", bvN 8)]); reflexivity.
Defined.

(* ================================================================= *)
(** ** Concatenation, continued *)

(** X10. Where the sum of the operand widths fits 32 bits, a concatenation
    verifies successfully exactly when its result width is that sum; any
    other result width fails with the error "sum of [first] and [second]
    must be equal to operand type [result]", which names the three types. *)
Theorem verifyConcatOp_sum_rule
    (op : Operation) (l r : Value) (t : Ty) (wl wr wd : N) :
  getOperand op 0 = Ok l ->
  getOperand op 1 = Ok r ->
  getResultType op 0 = Ok t ->
  getElementTypeOrSelf (getType l) = bvN wl ->
  getElementTypeOrSelf (getType r) = bvN wr ->
  getElementTypeOrSelf t = bvN wd ->
  wl + wr < UINT_MODULUS ->
  (verifyConcatOp (V := btor.BitVecType) op = Ok success <-> wd = wl + wr)
  /\ (wd <> wl + wr ->
      verifyConcatOp (V := btor.BitVecType) op
      = Ok (failure [DString "sum of "; DType (bvN wl); DString " and ";
                     DType (bvN wr); DString " must be equal to operand type ";
                     DType (bvN wd)])).
Proof.
  intros Hl Hr Ht Hwl Hwr Hwd Hfit.
  split.
  - rewrite (verifyConcatOp_modular op l r t wl wr wd) by assumption.
    now rewrite N.mod_small.
  - intros Hne. unfold verifyConcatOp. unfold_accessors. run_verifier.
    unfold uadd. rewrite N.mod_small by assumption.
    destruct (N.eqb_spec (wl + wr) wd) as [Heq | _]; [now elim Hne | reflexivity].
Qed.

Lemma verifyConcatOp_sum_rule_witness :
  (verifyConcatOp (V := btor.BitVecType)
     (operation "btor.concat" [value "x" (bvN 8); value "y" (bvN 4)] [bvN 12] [])
   = Ok success <-> 12 = 8 + 4)
  /\ verifyConcatOp (V := btor.BitVecType)
       (operation "btor.concat" [value "x" (bvN 8); value "y" (bvN 4)] [bvN 13] [])
     = Ok (failure [DString "sum of "; DType (bvN 8); DString " and ";
                    DType (bvN 4); DString " must be equal to operand type ";
                    DType (bvN 13)]).
Proof.
  split.
  - apply (verifyConcatOp_sum_rule
             (operation "btor.concat" [value "x" (bvN 8); value "y" (bvN 4)]
                [bvN 12] [])
             (value "x" (bvN 8)) (value "y" (bvN 4)) (bvN 12) 8 4 12);
      reflexivity.
  - apply (verifyConcatOp_sum_rule
             (operation "btor.concat" [value "x" (bvN 8); value "y" (bvN 4)]
                [bvN 13] [])
             (value "x" (bvN 8)) (value "y" (bvN 4)) (bvN 13) 8 4 13);
      try reflexivity. discriminate.
Defined.

(* ================================================================= *)
(** ** Generic arrays: read, write and conditional write verifiers *)

Ltac unfold_array_accessors :=
  unfold ReadOp_getArrayType, WriteOp_getArrayType,
    IteWriteInPlaceOp_getArrayType in *;
  unfold ArrayAccessors.ReadOp_base, ArrayAccessors.ReadOp_index,
    ArrayAccessors.WriteOp_value, ArrayAccessors.WriteOp_base,
    ArrayAccessors.WriteOp_index, ArrayAccessors.IteWrite_condition,
    ArrayAccessors.IteWrite_value, ArrayAccessors.IteWrite_base,
    ArrayAccessors.IteWrite_index, Accessors.result, Accessors.init in *.

(** X11. A read of an array verifies successfully exactly when its result
    is a bit-vector as wide as the array's elements; otherwise it fails with
    the op error "element type of the array must match  bitwidth of return
    type: " followed by the result width. *)
Theorem verifyReadOp_width_rule
    (op : Operation) (b : Value) (a : btor.ArrayType) (w : N) :
  getOperand op 0 = Ok b ->
  getType b = ArrayTy a ->
  getResultType op 0 = Ok (bvN w) ->
  (verifyReadOp op = Ok success <-> w = btor.getWidth (btor.getElement a))
  /\ (w <> btor.getWidth (btor.getElement a) ->
      verifyReadOp op = Ok (failure (returnTypeDiagnostic op w))).
Proof.
  intros Hb Htb Hr. unfold verifyReadOp. unfold_array_accessors. run_verifier.
  destruct (N.eqb_spec (btor.getWidth (btor.getElement a)) w) as [Heq | Hne]; cbn.
  - split; [split; [now intros _ | reflexivity] | intros Hd; now symmetry in Heq].
  - split; [split; [discriminate | intros Heq; now symmetry in Heq]|].
    reflexivity.
Qed.

Lemma verifyReadOp_width_rule_witness :
  verifyReadOp
    (operation "btor.read"
       [value "m" (ArrayTy (btor.array (btor.bv 4) (btor.bv 8)));
        value "i" (bvN 4)] [bvN 16] [])
  = Ok (failure [DString "'"; DString "btor.read"; DString "' op ";
                 DString "element type of the array must match ";
                 DString " bitwidth of return type: "; DUnsigned 16]).
Proof.
  apply (verifyReadOp_width_rule
           (operation "btor.read"
              [value "m" (ArrayTy (btor.array (btor.bv 4) (btor.bv 8)));
               value "i" (bvN 4)] [bvN 16] [])
           (value "m" (ArrayTy (btor.array (btor.bv 4) (btor.bv 8))))
           (btor.array (btor.bv 4) (btor.bv 8)) 16 eq_refl eq_refl eq_refl).
  discriminate.
Defined.

(** X12. A write into an array verifies successfully exactly when the
    written value is a bit-vector as wide as the array's elements; otherwise
    it fails with the op error "element type of the array must match
    bitwidth of return type: " followed by the width of the value.  The
    index is not looked at. *)
Theorem verifyWriteOp_width_rule
    (op : Operation) (v b : Value) (a : btor.ArrayType) (w : N) :
  getOperand op 0 = Ok v ->
  getType v = bvN w ->
  getOperand op 1 = Ok b ->
  getType b = ArrayTy a ->
  getResultType op 0 = Ok (ArrayTy a) ->
  (verifyWriteOp op = Ok success <-> w = btor.getWidth (btor.getElement a))
  /\ (w <> btor.getWidth (btor.getElement a) ->
      verifyWriteOp op = Ok (failure (returnTypeDiagnostic op w))).
Proof.
  intros Hv Htv Hb Htb Hr. unfold verifyWriteOp. unfold_array_accessors.
  run_verifier.
  destruct (N.eqb_spec (btor.getWidth (btor.getElement a)) w) as [Heq | Hne]; cbn.
  - split; [split; [now intros _ | reflexivity] | intros Hd; now symmetry in Heq].
  - split; [split; [discriminate | intros Heq; now symmetry in Heq]|].
    reflexivity.
Qed.

Lemma verifyWriteOp_width_rule_witness :
  verifyWriteOp
    (operation "btor.write"
       [value "v" (bvN 8);
        value "m" (ArrayTy (btor.array (btor.bv 4) (btor.bv 8)));
        value "i" (bvN 7)]
       [ArrayTy (btor.array (btor.bv 4) (btor.bv 8))] [])
  = Ok success <-> 8 = 8.
Proof.
  apply (verifyWriteOp_width_rule
           (operation "btor.write"
              [value "v" (bvN 8);
               value "m" (ArrayTy (btor.array (btor.bv 4) (btor.bv 8)));
               value "i" (bvN 7)]
              [ArrayTy (btor.array (btor.bv 4) (btor.bv 8))] [])
           (value "v" (bvN 8))
           (value "m" (ArrayTy (btor.array (btor.bv 4) (btor.bv 8))))
           (btor.array (btor.bv 4) (btor.bv 8)) 8); reflexivity.
Defined.

(** X13. A conditional in-place write verifies successfully exactly when
    the written value is as wide as the array's elements and the condition
    has width 1.  The element width is tested first: a value of the wrong
    width is reported as an op error whatever the condition, and only then
    is a condition of another width reported, as the plain error
    "condition needs to have width 1 (a boolean)". *)
Theorem verifyIteWriteInPlaceOp_rule
    (op : Operation) (c v b : Value) (a : btor.ArrayType) (cw w : N) :
  getOperand op 0 = Ok c ->
  getType c = bvN cw ->
  getOperand op 1 = Ok v ->
  getType v = bvN w ->
  getOperand op 2 = Ok b ->
  getType b = ArrayTy a ->
  getResultType op 0 = Ok (ArrayTy a) ->
  (verifyIteWriteInPlaceOp op = Ok success
   <-> w = btor.getWidth (btor.getElement a) /\ cw = 1)
  /\ (w <> btor.getWidth (btor.getElement a) ->
      verifyIteWriteInPlaceOp op = Ok (failure (returnTypeDiagnostic op w)))
  /\ (w = btor.getWidth (btor.getElement a) -> cw <> 1 ->
      verifyIteWriteInPlaceOp op
      = Ok (failure [DString "condition needs to have width 1 (a boolean)"])).
Proof.
  intros Hc Htc Hv Htv Hb Htb Hr.
  unfold verifyIteWriteInPlaceOp. unfold_array_accessors. run_verifier.
  destruct (N.eqb_spec (btor.getWidth (btor.getElement a)) w) as [Heq | Hne];
    cbn [negb].
  - run_verifier.
    destruct (N.eqb_spec cw 1) as [Hone | Hnone]; cbn [negb].
    + split; [split; [intros _; split; [now symmetry | assumption] | reflexivity]|].
      split; [intros Hd; now symmetry in Heq | intros _ Hd; contradiction].
    + split; [split; [discriminate | intros [_ Hd]; contradiction]|].
      split; [intros Hd; now symmetry in Heq | reflexivity].
  - split; [split; [discriminate | intros [Heq _]; now symmetry in Heq]|].
    split; [reflexivity | intros Heq; now symmetry in Heq].
Qed.

Lemma verifyIteWriteInPlaceOp_rule_witness :
  verifyIteWriteInPlaceOp
    (operation "btor.ite_write_in_place"
       [value "c" (bvN 2); value "v" (bvN 8);
        value "m" (ArrayTy (btor.array (btor.bv 4) (btor.bv 8)));
        value "i" (bvN 4)]
       [ArrayTy (btor.array (btor.bv 4) (btor.bv 8))] [])
  = Ok (failure [DString "condition needs to have width 1 (a boolean)"]).
Proof.
  apply (verifyIteWriteInPlaceOp_rule
           (operation "btor.ite_write_in_place"
              [value "c" (bvN 2); value "v" (bvN 8);
               value "m" (ArrayTy (btor.array (btor.bv 4) (btor.bv 8)));
               value "i" (bvN 4)]
              [ArrayTy (btor.array (btor.bv 4) (btor.bv 8))] [])
           (value "c" (bvN 2)) (value "v" (bvN 8))
           (value "m" (ArrayTy (btor.array (btor.bv 4) (btor.bv 8))))
           (btor.array (btor.bv 4) (btor.bv 8)) 2 8
           eq_refl eq_refl eq_refl eq_refl eq_refl eq_refl eq_refl);
    [reflexivity | discriminate].
Defined.

(* ================================================================= *)
(** ** Generic arrays: the text, and what a parsed operation verifies to *)

Ltac unfold_parse_chain H :=
  unfold parseIteWriteInPlaceOp, parseInitArrayOp, parseReadOp, parseWriteOp,
    parseVectorInitArrayOp, parseMemRefInitArrayOp, parseColonType, parseTypeAs,
    parseOptionalCommaInChain, resolveOperands, pbind, pret, pfail in H.

Ltac parse_step H :=
  match type of H with
  | context [dyn_cast_ArrayType ?t] =>
      destruct t; cbn [dyn_cast_ArrayType] in H; try discriminate H
  | context [dyn_cast_VectorType ?t] =>
      destruct t; cbn [dyn_cast_VectorType] in H; try discriminate H
  | context [dyn_cast_MemRefType ?t] =>
      destruct t; cbn [dyn_cast_MemRefType] in H; try discriminate H
  | context [getBVType ?t] =>
      destruct t; cbn [getBVType] in H; try discriminate H
  | (match ?x with Some _ => _ | None => _ end) = Some _ =>
      destruct x as [[? ?]|] eqn:?; [|discriminate H]
  | (if ?b then _ else _) = Some _ =>
      destruct b; [|discriminate H]
  end.

Ltac parse_steps H := unfold_parse_chain H; repeat parse_step H.

(** X14. An [InitArrayOp] whose init value has the element type of its
    array is read back from the text [printInitArrayOp] writes exactly as it
    was, attributes included. *)
Theorem InitArrayOp_roundtrip
    (name : string) (i : Value) (a : btor.ArrayType) (attrs : NamedAttrList)
    (sc : list (string * Ty)) :
  getType i = BitVecTy (btor.getElement a) ->
  inScope sc i ->
  exists text st,
    printInitArrayOp (operation name [i] [ArrayTy a] attrs) = Ok text
    /\ parseInitArrayOp emptyState (parser text sc) = Some (st, parser [] sc)
    /\ create name st = operation name [i] [ArrayTy a] attrs.
Proof.
  intros Hi Si. open_values.
  eexists. eexists. split; [reflexivity|].
  destruct attrs as [|at1 attrs]; unfold_parsers; resolve_in_scope;
    split; reflexivity.
Qed.

Lemma InitArrayOp_roundtrip_witness :
  exists text st,
    printInitArrayOp
      (operation "btor.init_array" [value "v" (bvN 8)]
         [ArrayTy (btor.array (btor.bv 4) (btor.bv 8))] []) = Ok text
    /\ parseInitArrayOp emptyState (parser text [("v", bvN 8)])
       = Some (st, parser [] [("v", bvN 8)])
    /\ create "btor.init_array" st
       = operation "btor.init_array" [value "v" (bvN 8)]
           [ArrayTy (btor.array (btor.bv 4) (btor.bv 8))] [].
Proof.
  apply (InitArrayOp_roundtrip "btor.init_array" (value "v" (bvN 8))
           (btor.array (btor.bv 4) (btor.bv 8)) [] [("v", bvN 8)]);
    reflexivity.
Defined.

(** X15. Whatever text [parseInitArrayOp] accepts, the operation it builds
    passes [verifyInitArrayOp]: the parser resolves the init value at the
    element type of the array type it read. *)
Theorem parseInitArrayOp_verifies
    (name : string) (p p' : Parser) (st : OperationState) :
  parseInitArrayOp emptyState p = Some (st, p') ->
  verifyInitArrayOp (create name st) = Ok success.
Proof.
  intros Hparse. parse_steps Hparse.
  cbn [List.length Nat.eqb negb] in Hparse.
  match type of Hparse with
  | context [resolveEach ?ns ?ts ?q] =>
      destruct (resolveEach ns ts q) as [[vs q']|] eqn:Hres; [|discriminate]
  end.
  apply resolveEach_values in Hres. subst vs. injection Hparse as <- _.
  unfold verifyInitArrayOp. unfold_accessors. cbn.
  now rewrite N.eqb_refl.
Qed.

Lemma parseInitArrayOp_verifies_witness :
  verifyInitArrayOp
    (create "btor.init_array"
       (operationState [value "v" (bvN 8)]
          [ArrayTy (btor.array (btor.bv 4) (btor.bv 8))] []))
  = Ok success.
Proof.
  apply (parseInitArrayOp_verifies "btor.init_array"
           (parser [percent_identifier "v"; colon;
                    type_token (ArrayTy (btor.array (btor.bv 4) (btor.bv 8)))] [])
           (parser [] [("v", bvN 8)])).
  vm_compute. reflexivity.
Defined.

Ltac finish_parse Hparse :=
  cbn [List.length Nat.eqb negb] in Hparse;
  match type of Hparse with
  | context [resolveEach ?ns ?ts ?q] =>
      let Hres := fresh "Hres" in
      destruct (resolveEach ns ts q) as [[? ?]|] eqn:Hres; [|discriminate Hparse];
      apply resolveEach_values in Hres; subst; injection Hparse as <- _
  end.

(** X16. A write whose value has the element type, whose base has the
    result's array type and whose index has its index type is read back
    from the text [printWriteOp] writes exactly as it was. *)
Theorem WriteOp_roundtrip
    (name : string) (v b i : Value) (a : btor.ArrayType) (attrs : NamedAttrList)
    (sc : list (string * Ty)) :
  getType v = BitVecTy (btor.getElement a) ->
  getType b = ArrayTy a ->
  getType i = BitVecTy (btor.getShape a) ->
  inScope sc v -> inScope sc b -> inScope sc i ->
  exists text st,
    printWriteOp (operation name [v; b; i] [ArrayTy a] attrs) = Ok text
    /\ parseWriteOp emptyState (parser text sc) = Some (st, parser [] sc)
    /\ create name st = operation name [v; b; i] [ArrayTy a] attrs.
Proof.
  intros Hv Hb Hi Sv Sb Si. open_values.
  eexists. eexists. split; [reflexivity|].
  destruct attrs as [|at1 attrs]; unfold_parsers; resolve_in_scope;
    split; reflexivity.
Qed.

Lemma WriteOp_roundtrip_witness :
  exists text st,
    printWriteOp
      (operation "btor.write"
         [value "v" (bvN 8);
          value "m" (ArrayTy (btor.array (btor.bv 4) (btor.bv 8)));
          value "i" (bvN 4)]
         [ArrayTy (btor.array (btor.bv 4) (btor.bv 8))] []) = Ok text
    /\ parseWriteOp emptyState
         (parser text
            [("v", bvN 8);
             ("m", ArrayTy (btor.array (btor.bv 4) (btor.bv 8)));
             ("i", bvN 4)])
       = Some (st, parser []
                     [("v", bvN 8);
                      ("m", ArrayTy (btor.array (btor.bv 4) (btor.bv 8)));
                      ("i", bvN 4)])
    /\ create "btor.write" st
       = operation "btor.write"
           [value "v" (bvN 8);
            value "m" (ArrayTy (btor.array (btor.bv 4) (btor.bv 8)));
            value "i" (bvN 4)]
           [ArrayTy (btor.array (btor.bv 4) (btor.bv 8))] [].
Proof.
  apply (WriteOp_roundtrip "btor.write"
           (value "v" (bvN 8))
           (value "m" (ArrayTy (btor.array (btor.bv 4) (btor.bv 8))))
           (value "i" (bvN 4))
           (btor.array (btor.bv 4) (btor.bv 8)) []
           [("v", bvN 8);
            ("m", ArrayTy (btor.array (btor.bv 4) (btor.bv 8)));
            ("i", bvN 4)]); reflexivity.
Defined.

(** X17. Whatever text [parseWriteOp] accepts, the operation it builds
    passes [verifyWriteOp], and its base has the type of its result. *)
Theorem parseWriteOp_verifies
    (name : string) (p p' : Parser) (st : OperationState) :
  parseWriteOp emptyState p = Some (st, p') ->
  verifyWriteOp (create name st) = Ok success
  /\ exists v b i a,
       operands st = [v; b; i] /\ types st = [ArrayTy a]
       /\ getType v = BitVecTy (btor.getElement a)
       /\ getType b = ArrayTy a
       /\ getType i = BitVecTy (btor.getShape a).
Proof.
  intros Hparse. parse_steps Hparse. finish_parse Hparse.
  split.
  - unfold verifyWriteOp. unfold_array_accessors. cbn. now rewrite N.eqb_refl.
  - cbn. do 4 eexists. repeat (split; [reflexivity|]). reflexivity.
Qed.

Lemma parseWriteOp_verifies_witness :
  verifyWriteOp
    (create "btor.write"
       (operationState
          [value "v" (bvN 8);
           value "m" (ArrayTy (btor.array (btor.bv 4) (btor.bv 8)));
           value "i" (bvN 4)]
          [ArrayTy (btor.array (btor.bv 4) (btor.bv 8))] []))
  = Ok success.
Proof.
  apply (parseWriteOp_verifies "btor.write"
           (parser [percent_identifier "v"; comma; percent_identifier "m";
                    l_square; percent_identifier "i"; r_square; colon;
                    type_token (ArrayTy (btor.array (btor.bv 4) (btor.bv 8)))] [])
           (parser [] [("i", bvN 4);
                       ("m", ArrayTy (btor.array (btor.bv 4) (btor.bv 8)));
                       ("v", bvN 8)])).
  vm_compute. reflexivity.
Defined.

(** X18. A read whose base is an array and whose index has the array's
    index type is read back from the text [printReadOp] writes exactly as
    it was, whatever the width of its bit-vector result. *)
Theorem ReadOp_roundtrip
    (name : string) (b i : Value) (a : btor.ArrayType) (w : btor.BitVecType)
    (attrs : NamedAttrList) (sc : list (string * Ty)) :
  getType b = ArrayTy a ->
  getType i = BitVecTy (btor.getShape a) ->
  inScope sc b -> inScope sc i ->
  exists text st,
    printReadOp (operation name [b; i] [BitVecTy w] attrs) = Ok text
    /\ parseReadOp emptyState (parser text sc) = Some (st, parser [] sc)
    /\ create name st = operation name [b; i] [BitVecTy w] attrs.
Proof.
  intros Hb Hi Sb Si. open_values.
  eexists. eexists. split; [reflexivity|].
  destruct attrs as [|at1 attrs]; unfold_parsers; resolve_in_scope;
    split; reflexivity.
Qed.

Lemma ReadOp_roundtrip_witness :
  exists text st,
    printReadOp
      (operation "btor.read"
         [value "m" (ArrayTy (btor.array (btor.bv 4) (btor.bv 8)));
          value "i" (bvN 4)] [bvN 8] []) = Ok text
    /\ parseReadOp emptyState
         (parser text
            [("m", ArrayTy (btor.array (btor.bv 4) (btor.bv 8))); ("i", bvN 4)])
       = Some (st, parser []
                     [("m", ArrayTy (btor.array (btor.bv 4) (btor.bv 8)));
                      ("i", bvN 4)])
    /\ create "btor.read" st
       = operation "btor.read"
           [value "m" (ArrayTy (btor.array (btor.bv 4) (btor.bv 8)));
            value "i" (bvN 4)] [bvN 8] [].
Proof.
  apply (ReadOp_roundtrip "btor.read"
           (value "m" (ArrayTy (btor.array (btor.bv 4) (btor.bv 8))))
           (value "i" (bvN 4))
           (btor.array (btor.bv 4) (btor.bv 8)) (btor.bv 8) []
           [("m", ArrayTy (btor.array (btor.bv 4) (btor.bv 8))); ("i", bvN 4)]);
    reflexivity.
Defined.

(** X19. [parseReadOp] takes the result type from the text and does not
    compare it with the array type: the operation it builds has an array
    base and a bit-vector result, and passes [verifyReadOp] exactly when the
    result is as wide as the array's elements. *)
Theorem parseReadOp_then_verify
    (name : string) (p p' : Parser) (st : OperationState) :
  parseReadOp emptyState p = Some (st, p') ->
  exists b i a w,
    operands st = [b; i] /\ types st = [BitVecTy w]
    /\ getType b = ArrayTy a
    /\ getType i = BitVecTy (btor.getShape a)
    /\ (verifyReadOp (create name st) = Ok success
        <-> btor.getWidth w = btor.getWidth (btor.getElement a)).
Proof.
  intros Hparse. parse_steps Hparse. finish_parse Hparse.
  cbn. do 4 eexists. repeat (split; [reflexivity|]).
  unfold verifyReadOp. unfold_array_accessors. cbn.
  match goal with
  | |- context [N.eqb ?x ?y] => destruct (N.eqb_spec x y) as [Heq | Hne]
  end; cbn.
  - split; [intros _; now symmetry | reflexivity].
  - split; [discriminate | intros Heq; now symmetry in Heq].
Qed.

Lemma parseReadOp_then_verify_witness :
  exists b i a w,
    [value "m" (ArrayTy (btor.array (btor.bv 4) (btor.bv 8))); value "i" (bvN 4)]
    = [b; i]
    /\ [bvN 16] = [BitVecTy w]
    /\ getType b = ArrayTy a
    /\ getType i = BitVecTy (btor.getShape a)
    /\ (verifyReadOp
          (create "btor.read"
             (operationState
                [value "m" (ArrayTy (btor.array (btor.bv 4) (btor.bv 8)));
                 value "i" (bvN 4)] [bvN 16] []))
        = Ok success
        <-> btor.getWidth w = btor.getWidth (btor.getElement a)).
Proof.
  apply (parseReadOp_then_verify "btor.read"
           (parser [percent_identifier "m"; l_square; percent_identifier "i";
                    r_square; colon;
                    type_token (ArrayTy (btor.array (btor.bv 4) (btor.bv 8)));
                    comma; type_token (bvN 16)] [])
           (parser [] [("i", bvN 4);
                       ("m", ArrayTy (btor.array (btor.bv 4) (btor.bv 8)))])
           (operationState
              [value "m" (ArrayTy (btor.array (btor.bv 4) (btor.bv 8)));
               value "i" (bvN 4)] [bvN 16] [])).
  vm_compute. reflexivity.
Defined.

(** X20. A conditional in-place write with a width-1 condition, a value of
    the element type, a base of the result's array type and an index of its
    index type is read back from the text [printIteWriteInPlaceOp] writes
    exactly as it was. *)
Theorem IteWriteInPlaceOp_roundtrip
    (name : string) (c v b i : Value) (a : btor.ArrayType)
    (attrs : NamedAttrList) (sc : list (string * Ty)) :
  getType c = bvN 1 ->
  getType v = BitVecTy (btor.getElement a) ->
  getType b = ArrayTy a ->
  getType i = BitVecTy (btor.getShape a) ->
  inScope sc c -> inScope sc v -> inScope sc b -> inScope sc i ->
  exists text st,
    printIteWriteInPlaceOp (operation name [c; v; b; i] [ArrayTy a] attrs) = Ok text
    /\ parseIteWriteInPlaceOp emptyState (parser text sc) = Some (st, parser [] sc)
    /\ create name st = operation name [c; v; b; i] [ArrayTy a] attrs.
Proof.
  intros Hc Hv Hb Hi Sc Sv Sb Si. open_values.
  eexists. eexists. split; [reflexivity|].
  destruct attrs as [|at1 attrs]; unfold_parsers; resolve_in_scope;
    split; reflexivity.
Qed.

Lemma IteWriteInPlaceOp_roundtrip_witness :
  exists text st,
    printIteWriteInPlaceOp
      (operation "btor.ite_write_in_place"
         [value "c" (bvN 1); value "v" (bvN 8);
          value "m" (ArrayTy (btor.array (btor.bv 4) (btor.bv 8)));
          value "i" (bvN 4)]
         [ArrayTy (btor.array (btor.bv 4) (btor.bv 8))] []) = Ok text
    /\ parseIteWriteInPlaceOp emptyState
         (parser text
            [("c", bvN 1); ("v", bvN 8);
             ("m", ArrayTy (btor.array (btor.bv 4) (btor.bv 8)));
             ("i", bvN 4)])
       = Some (st, parser []
                     [("c", bvN 1); ("v", bvN 8);
                      ("m", ArrayTy (btor.array (btor.bv 4) (btor.bv 8)));
                      ("i", bvN 4)])
    /\ create "btor.ite_write_in_place" st
       = operation "btor.ite_write_in_place"
           [value "c" (bvN 1); value "v" (bvN 8);
            value "m" (ArrayTy (btor.array (btor.bv 4) (btor.bv 8)));
            value "i" (bvN 4)]
           [ArrayTy (btor.array (btor.bv 4) (btor.bv 8))] [].
Proof.
  apply (IteWriteInPlaceOp_roundtrip "btor.ite_write_in_place"
           (value "c" (bvN 1)) (value "v" (bvN 8))
           (value "m" (ArrayTy (btor.array (btor.bv 4) (btor.bv 8))))
           (value "i" (bvN 4))
           (btor.array (btor.bv 4) (btor.bv 8)) []
           [("c", bvN 1); ("v", bvN 8);
            ("m", ArrayTy (btor.array (btor.bv 4) (btor.bv 8)));
            ("i", bvN 4)]); reflexivity.
Defined.

(** X21. Whatever text [parseIteWriteInPlaceOp] accepts, the operation it
    builds passes [verifyIteWriteInPlaceOp]: the condition is resolved at
    width 1 and the value at the element type of the array type read. *)
Theorem parseIteWriteInPlaceOp_verifies
    (name : string) (p p' : Parser) (st : OperationState) :
  parseIteWriteInPlaceOp emptyState p = Some (st, p') ->
  verifyIteWriteInPlaceOp (create name st) = Ok success
  /\ exists c v b i a,
       operands st = [c; v; b; i] /\ types st = [ArrayTy a]
       /\ getType c = bvN 1
       /\ getType v = BitVecTy (btor.getElement a)
       /\ getType b = ArrayTy a
       /\ getType i = BitVecTy (btor.getShape a).
Proof.
  intros Hparse. parse_steps Hparse. finish_parse Hparse.
  split.
  - unfold verifyIteWriteInPlaceOp. unfold_array_accessors. cbn.
    rewrite N.eqb_refl. reflexivity.
  - cbn. do 5 eexists. repeat (split; [reflexivity|]). reflexivity.
Qed.

Lemma parseIteWriteInPlaceOp_verifies_witness :
  verifyIteWriteInPlaceOp
    (create "btor.ite_write_in_place"
       (operationState
          [value "c" (bvN 1); value "v" (bvN 8);
           value "m" (ArrayTy (btor.array (btor.bv 4) (btor.bv 8)));
           value "i" (bvN 4)]
          [ArrayTy (btor.array (btor.bv 4) (btor.bv 8))] []))
  = Ok success.
Proof.
  apply (parseIteWriteInPlaceOp_verifies "btor.ite_write_in_place"
           (parser [percent_identifier "c"; comma; percent_identifier "v"; comma;
                    percent_identifier "m"; l_square; percent_identifier "i";
                    r_square; colon;
                    type_token (ArrayTy (btor.array (btor.bv 4) (btor.bv 8)))] [])
           (parser [] [("i", bvN 4);
                       ("m", ArrayTy (btor.array (btor.bv 4) (btor.bv 8)));
                       ("v", bvN 8); ("c", bvN 1)])).
  vm_compute. reflexivity.
Defined.

(** X22. The parsers of the generic array operations take array types
    only: where the text gives any other kind of type after the colon,
    [parseInitArrayOp], [parseWriteOp], [parseIteWriteInPlaceOp] and
    [parseReadOp] turn it down, whatever comes before and after. *)
Theorem array_parsers_reject_other_types
    (c v b i : string) (t : Ty) (rest : list Token) (sc : list (string * Ty)) :
  dyn_cast_ArrayType t = None ->
  parseInitArrayOp emptyState
    (parser (percent_identifier v :: colon :: type_token t :: rest) sc) = None
  /\ parseWriteOp emptyState
       (parser (percent_identifier v :: comma :: percent_identifier b :: l_square
                :: percent_identifier i :: r_square :: colon :: type_token t
                :: rest) sc) = None
  /\ parseIteWriteInPlaceOp emptyState
       (parser (percent_identifier c :: comma :: percent_identifier v :: comma
                :: percent_identifier b :: l_square :: percent_identifier i
                :: r_square :: colon :: type_token t :: rest) sc) = None
  /\ parseReadOp emptyState
       (parser (percent_identifier b :: l_square :: percent_identifier i
                :: r_square :: colon :: type_token t :: rest) sc) = None.
Proof.
  intros Hcast.
  split; [|split; [|split]]; unfold_parsers; cbn; now rewrite Hcast.
Qed.

Lemma array_parsers_reject_other_types_witness :
  parseInitArrayOp emptyState
    (parser [percent_identifier "v"; colon; type_token (bvN 8)] []) = None.
Proof.
  apply (array_parsers_reject_other_types "c" "v" "m" "i" (bvN 8) [] []).
  reflexivity.
Defined.

(* ================================================================= *)
(** ** Constant operations *)

(** X23. A constant whose [value] attribute is an integer of type [iN]
    passes [verifyConstantOp] exactly when its result is the bit-vector type
    of width [N].  Any other result type, bit-vector or not, is a failure
    rather than an abort, and the failure carries no diagnostic. *)
Theorem verifyConstantOp_rule
    (op : Operation) (r : Ty) (w : N) (z : Z) :
  getResultType op 0 = Ok r ->
  lookupAttr "value" (getAttrs op) = Some (IntegerAttr (IntegerTy w) z) ->
  (verifyConstantOp op = Ok success <-> r = bvN w)
  /\ (r <> bvN w -> verifyConstantOp op = Ok (failure [])).
Proof.
  intros Hr Hv. unfold verifyConstantOp, Accessors.result, Accessors.value, getAttr.
  rewrite Hr, Hv. cbn [bind].
  destruct r as [[rw]| | | |]; cbn;
    try (split; [split; [discriminate | intros Heq; discriminate Heq]
                | reflexivity]).
  destruct (N.eqb_spec rw w) as [-> | Hne].
  - split; [split; reflexivity | intros Hd; now elim Hd].
  - split; [split; [discriminate
                   | intros Heq; exfalso; apply Hne; now injection Heq]|].
    reflexivity.
Qed.

Lemma verifyConstantOp_rule_witness :
  (verifyConstantOp
     (operation "btor.const" [] [bvN 4] [("value", IntegerAttr (IntegerTy 4) 5)])
   = Ok success <-> bvN 4 = bvN 4)
  /\ verifyConstantOp
       (operation "btor.const" [] [IntegerTy 4]
          [("value", IntegerAttr (IntegerTy 4) 5)])
     = Ok (failure []).
Proof.
  split.
  - apply (verifyConstantOp_rule
             (operation "btor.const" [] [bvN 4]
                [("value", IntegerAttr (IntegerTy 4) 5)]) (bvN 4) 4 5);
      reflexivity.
  - apply (verifyConstantOp_rule
             (operation "btor.const" [] [IntegerTy 4]
                [("value", IntegerAttr (IntegerTy 4) 5)]) (IntegerTy 4) 4 5
             eq_refl eq_refl).
    discriminate.
Defined.

(* ================================================================= *)
(** ** Vector and memref encodings, continued *)

Lemma indicator_negative (shape : Z) :
  (INT64_MIN < shape < 0)%Z -> Z.land shape (sub64 shape 1) <> 0%Z.
Proof.
  intros Hs. rewrite sub64_exact by (unfold INT64_MAX; lia).
  assert (Hneg : (Z.land shape (shape - 1) < 0)%Z) by (apply Z.land_neg; lia).
  lia.
Qed.

(** The lengths the bit test lets through, over the whole [int64_t] range
    but its least element: zero and the powers of two. *)
Lemma indicator_zero_iff (shape : Z) :
  (INT64_MIN < shape <= INT64_MAX)%Z ->
  Z.land shape (sub64 shape 1) = 0%Z <-> shape = 0%Z \/ isPowerOfTwo shape.
Proof.
  intros Hs. destruct (Z.lt_trichotomy shape 0) as [Hneg | [-> | Hpos]].
  - split.
    + intros Hz. now elim (indicator_negative shape (conj (proj1 Hs) Hneg)).
    + intros [-> | [k [Hk ->]]]; [lia|].
      pose proof (Z.pow_pos_nonneg 2 k ltac:(lia) Hk). lia.
  - split; [now left | reflexivity].
  - rewrite (indicator_power_of_two shape) by lia.
    split; [now right | intros [-> | Hp]; [lia | assumption]].
Qed.

(** X24. Over every length but [INT64_MIN], the three verifiers that test
    the shape accept exactly the length 0 and the powers of two, given one
    dimension and matching element widths; in particular every negative
    length, such as the -1 that stands for a dynamic dimension, is turned
    down with the op error "given shape: [len] has to be a power of two". *)
Theorem shape_test_accepts_zero_and_powers
    (vinit vread mread : Operation) (i vb mb : Value) (w : N) (len : Z) :
  getOperand vinit 0 = Ok i ->
  getType i = IntegerTy w ->
  getResultType vinit 0 = Ok (VectorTy [len] (IntegerTy w)) ->
  getOperand vread 0 = Ok vb ->
  getType vb = VectorTy [len] (IntegerTy w) ->
  getResultType vread 0 = Ok (IntegerTy w) ->
  getOperand mread 0 = Ok mb ->
  getType mb = MemRefTy [len] (IntegerTy w) ->
  getResultType mread 0 = Ok (IntegerTy w) ->
  (INT64_MIN < len <= INT64_MAX)%Z ->
  (verifyVectorInitArrayOp vinit = Ok success <-> len = 0%Z \/ isPowerOfTwo len)
  /\ (verifyVectorReadOp vread = Ok success <-> len = 0%Z \/ isPowerOfTwo len)
  /\ (verifyMemRefReadOp mread = Ok success <-> len = 0%Z \/ isPowerOfTwo len)
  /\ ((len < 0)%Z ->
      verifyVectorInitArrayOp vinit = Ok (failure (shapeDiagnostic vinit len))
      /\ verifyVectorReadOp vread = Ok (failure (shapeDiagnostic vread len))
      /\ verifyMemRefReadOp mread = Ok (failure (shapeDiagnostic mread len))).
Proof.
  intros Hi Hti Hvr Hvb Htvb Hrr Hmb Htmb Hmr Hlen.
  rewrite (verifyVectorInitArrayOp_run vinit i w len Hi Hti Hvr).
  rewrite (verifyVectorReadOp_run vread vb w len Hvb Htvb Hrr).
  rewrite (verifyMemRefReadOp_run mread mb w len Hmb Htmb Hmr).
  pose proof (indicator_zero_iff len Hlen) as Hiff.
  destruct (Z.eqb_spec (Z.land len (sub64 len 1)) 0) as [Hz | Hnz].
  - assert (Hok : len = 0%Z \/ isPowerOfTwo len) by now apply Hiff.
    split; [split; [now intros _ | reflexivity]|].
    split; [split; [now intros _ | reflexivity]|].
    split; [split; [now intros _ | reflexivity]|].
    intros Hneg. exfalso.
    apply (indicator_negative len (conj (proj1 Hlen) Hneg)). exact Hz.
  - split; [split; [discriminate | intros Hok; elim Hnz; now apply Hiff]|].
    split; [split; [discriminate | intros Hok; elim Hnz; now apply Hiff]|].
    split; [split; [discriminate | intros Hok; elim Hnz; now apply Hiff]|].
    intros _. split; [|split]; reflexivity.
Qed.

Lemma shape_test_accepts_zero_and_powers_witness :
  verifyMemRefReadOp
    (operation "btor.memref_read"
       [value "m" (MemRefTy [(-1)%Z] (IntegerTy 8)); value "i" (IntegerTy 2)]
       [IntegerTy 8] [])
  = Ok (failure [DString "'"; DString "btor.memref_read"; DString "' op ";
                 DString "given shape: "; DInteger (-1);
                 DString " has to be a power of two"]).
Proof.
  destruct (shape_test_accepts_zero_and_powers
              (operation "btor.vector_init_array" [value "v" (IntegerTy 8)]
                 [VectorTy [(-1)%Z] (IntegerTy 8)] [])
              (operation "btor.vector_read"
                 [value "m" (VectorTy [(-1)%Z] (IntegerTy 8));
                  value "i" (IntegerTy 2)] [IntegerTy 8] [])
              (operation "btor.memref_read"
                 [value "m" (MemRefTy [(-1)%Z] (IntegerTy 8));
                  value "i" (IntegerTy 2)] [IntegerTy 8] [])
              (value "v" (IntegerTy 8))
              (value "m" (VectorTy [(-1)%Z] (IntegerTy 8)))
              (value "m" (MemRefTy [(-1)%Z] (IntegerTy 8)))
              8 (-1)%Z
              eq_refl eq_refl eq_refl eq_refl eq_refl eq_refl eq_refl eq_refl
              eq_refl ltac:(unfold INT64_MIN, INT64_MAX; lia))
    as [_ [_ [_ Hneg]]].
  apply Hneg. lia.
Defined.

(** X25. The three verifiers that test the shape want exactly one
    dimension: with matching element widths, a shape of no dimension or of
    several is turned down with the op error "provide only one shape
    attribute ", before any length is looked at. *)
Theorem shape_rank_checked
    (vinit vread mread : Operation) (i vb mb : Value) (w : N) (shape : list Z) :
  getOperand vinit 0 = Ok i ->
  getType i = IntegerTy w ->
  getResultType vinit 0 = Ok (VectorTy shape (IntegerTy w)) ->
  getOperand vread 0 = Ok vb ->
  getType vb = VectorTy shape (IntegerTy w) ->
  getResultType vread 0 = Ok (IntegerTy w) ->
  getOperand mread 0 = Ok mb ->
  getType mb = MemRefTy shape (IntegerTy w) ->
  getResultType mread 0 = Ok (IntegerTy w) ->
  List.length shape <> 1%nat ->
  verifyVectorInitArrayOp vinit = Ok (failure (rankDiagnostic vinit))
  /\ verifyVectorReadOp vread = Ok (failure (rankDiagnostic vread))
  /\ verifyMemRefReadOp mread = Ok (failure (rankDiagnostic mread)).
Proof.
  intros Hi Hti Hvr Hvb Htvb Hrr Hmb Htmb Hmr Hrank.
  assert (Hnot : negb (Nat.eqb (List.length shape) 1) = true).
  { destruct (Nat.eqb_spec (List.length shape) 1); [contradiction | reflexivity]. }
  split; [|split].
  - unfold verifyVectorInitArrayOp. unfold_accessors.
    cbn [bind]. rewrite Hi. cbn [bind]. rewrite Hti, Hvr.
    cbn [bind getIntOrFloatBitWidth cast_VectorType getElementType].
    rewrite N.eqb_refl. unfold rankIsNotOne. cbn [negb getShape].
    now rewrite Hnot.
  - unfold verifyVectorReadOp. unfold_accessors.
    cbn [bind]. rewrite Hrr. cbn [bind getIntOrFloatBitWidth]. rewrite Hvb.
    cbn [bind]. rewrite Htvb.
    cbn [bind getIntOrFloatBitWidth cast_VectorType getElementType].
    rewrite N.eqb_refl. unfold rankIsNotOne. cbn [negb getShape].
    now rewrite Hnot.
  - unfold verifyMemRefReadOp. unfold_accessors.
    cbn [bind]. rewrite Hmr. cbn [bind getIntOrFloatBitWidth]. rewrite Hmb.
    cbn [bind]. rewrite Htmb.
    cbn [bind getIntOrFloatBitWidth cast_MemRefType getElementType].
    rewrite N.eqb_refl. unfold rankIsNotOne. cbn [negb getShape].
    now rewrite Hnot.
Qed.

Lemma shape_rank_checked_witness :
  verifyMemRefReadOp
    (operation "btor.memref_read"
       [value "m" (MemRefTy [] (IntegerTy 8)); value "i" (IntegerTy 2)]
       [IntegerTy 8] [])
  = Ok (failure [DString "'"; DString "btor.memref_read"; DString "' op ";
                 DString "provide only one shape attribute "]).
Proof.
  apply (shape_rank_checked
           (operation "btor.vector_init_array" [value "v" (IntegerTy 8)]
              [VectorTy [] (IntegerTy 8)] [])
           (operation "btor.vector_read"
              [value "m" (VectorTy [] (IntegerTy 8)); value "i" (IntegerTy 2)]
              [IntegerTy 8] [])
           (operation "btor.memref_read"
              [value "m" (MemRefTy [] (IntegerTy 8)); value "i" (IntegerTy 2)]
              [IntegerTy 8] [])
           (value "v" (IntegerTy 8))
           (value "m" (VectorTy [] (IntegerTy 8)))
           (value "m" (MemRefTy [] (IntegerTy 8)))
           8 []
           eq_refl eq_refl eq_refl eq_refl eq_refl eq_refl eq_refl eq_refl
           eq_refl).
  discriminate.
Defined.

(** X26. In the vector and memref verifiers the element width comes first:
    when the array's element width differs from the width of the init
    value, of the read result or of the written value, the operation fails
    with the element-width op error carrying that width, whatever its shape
    (any number of dimensions, any lengths). *)
Theorem element_width_checked_first
    (vinit vread vwrite mread mwrite : Operation) (i vb v mb mv : Value)
    (w ew : N) (shape : list Z) :
  getOperand vinit 0 = Ok i ->
  getType i = IntegerTy w ->
  getResultType vinit 0 = Ok (VectorTy shape (IntegerTy ew)) ->
  getOperand vread 0 = Ok vb ->
  getType vb = VectorTy shape (IntegerTy ew) ->
  getResultType vread 0 = Ok (IntegerTy w) ->
  getOperand vwrite 0 = Ok v ->
  getType v = IntegerTy w ->
  getResultType vwrite 0 = Ok (VectorTy shape (IntegerTy ew)) ->
  getOperand mread 0 = Ok mb ->
  getType mb = MemRefTy shape (IntegerTy ew) ->
  getResultType mread 0 = Ok (IntegerTy w) ->
  getOperand mwrite 0 = Ok mv ->
  getType mv = IntegerTy w ->
  getResultType mwrite 0 = Ok (MemRefTy shape (IntegerTy ew)) ->
  ew <> w ->
  verifyVectorInitArrayOp vinit = Ok (failure (givenValueDiagnostic vinit w))
  /\ verifyVectorReadOp vread = Ok (failure (returnTypeDiagnostic vread w))
  /\ verifyVectorWriteOp vwrite = Ok (failure (givenValueDiagnostic vwrite w))
  /\ verifyMemRefReadOp mread = Ok (failure (returnTypeDiagnostic mread w))
  /\ verifyMemRefWriteOp mwrite = Ok (failure (givenValueDiagnostic mwrite w)).
Proof.
  intros Hi Hti Hvr Hvb Htvb Hrr Hv Htv Hwr Hmb Htmb Hmr Hmv Htmv Hmwr Hne.
  assert (Hnot : negb (ew =? w) = true).
  { destruct (N.eqb_spec ew w); [contradiction | reflexivity]. }
  split; [|split; [|split; [|split]]].
  - unfold verifyVectorInitArrayOp. unfold_accessors.
    cbn [bind]. rewrite Hi. cbn [bind]. rewrite Hti, Hvr.
    cbn [bind getIntOrFloatBitWidth cast_VectorType getElementType].
    now rewrite Hnot.
  - unfold verifyVectorReadOp. unfold_accessors.
    cbn [bind]. rewrite Hrr. cbn [bind getIntOrFloatBitWidth]. rewrite Hvb.
    cbn [bind]. rewrite Htvb.
    cbn [bind getIntOrFloatBitWidth cast_VectorType getElementType].
    now rewrite Hnot.
  - unfold verifyVectorWriteOp. unfold_accessors.
    cbn [bind]. rewrite Hv. cbn [bind]. rewrite Htv, Hwr.
    cbn [bind getIntOrFloatBitWidth cast_VectorType getElementType].
    now rewrite Hnot.
  - unfold verifyMemRefReadOp. unfold_accessors.
    cbn [bind]. rewrite Hmr. cbn [bind getIntOrFloatBitWidth]. rewrite Hmb.
    cbn [bind]. rewrite Htmb.
    cbn [bind getIntOrFloatBitWidth cast_MemRefType getElementType].
    now rewrite Hnot.
  - unfold verifyMemRefWriteOp. unfold_accessors.
    cbn [bind]. rewrite Hmv. cbn [bind]. rewrite Htmv, Hmwr.
    cbn [bind getIntOrFloatBitWidth cast_MemRefType getElementType].
    now rewrite Hnot.
Qed.

Lemma element_width_checked_first_witness :
  verifyVectorInitArrayOp
    (operation "btor.vector_init_array" [value "v" (IntegerTy 8)]
       [VectorTy [3%Z; 5%Z] (IntegerTy 16)] [])
  = Ok (failure [DString "'"; DString "btor.vector_init_array"; DString "' op ";
                 DString "element type of the array must match ";
                 DString " bitwidth of given value: "; DUnsigned 8]).
Proof.
  apply (element_width_checked_first
           (operation "btor.vector_init_array" [value "v" (IntegerTy 8)]
              [VectorTy [3%Z; 5%Z] (IntegerTy 16)] [])
           (operation "btor.vector_read"
              [value "m" (VectorTy [3%Z; 5%Z] (IntegerTy 16));
               value "i" (IntegerTy 2)] [IntegerTy 8] [])
           (operation "btor.vector_write"
              [value "v" (IntegerTy 8);
               value "m" (VectorTy [3%Z; 5%Z] (IntegerTy 16));
               value "i" (IntegerTy 2)]
              [VectorTy [3%Z; 5%Z] (IntegerTy 16)] [])
           (operation "btor.memref_read"
              [value "m" (MemRefTy [3%Z; 5%Z] (IntegerTy 16));
               value "i" (IntegerTy 2)] [IntegerTy 8] [])
           (operation "btor.memref_write"
              [value "v" (IntegerTy 8);
               value "m" (MemRefTy [3%Z; 5%Z] (IntegerTy 16));
               value "i" (IntegerTy 2)]
              [MemRefTy [3%Z; 5%Z] (IntegerTy 16)] [])
           (value "v" (IntegerTy 8))
           (value "m" (VectorTy [3%Z; 5%Z] (IntegerTy 16)))
           (value "v" (IntegerTy 8))
           (value "m" (MemRefTy [3%Z; 5%Z] (IntegerTy 16)))
           (value "v" (IntegerTy 8))
           8 16 [3%Z; 5%Z]
           eq_refl eq_refl eq_refl eq_refl eq_refl eq_refl eq_refl eq_refl
           eq_refl eq_refl eq_refl eq_refl eq_refl eq_refl eq_refl).
  discriminate.
Defined.

(** X27. The write verifiers of the vector and memref encodings look at
    the element width and at nothing else: whatever the shape -- no
    dimension, several, a length that is no power of two -- the write
    verifies successfully exactly when the written value is as wide as the
    array's elements. *)
Theorem write_verifiers_ignore_shape
    (vwrite mwrite : Operation) (v mv : Value) (w ew : N) (shape : list Z) :
  getOperand vwrite 0 = Ok v ->
  getType v = IntegerTy w ->
  getResultType vwrite 0 = Ok (VectorTy shape (IntegerTy ew)) ->
  getOperand mwrite 0 = Ok mv ->
  getType mv = IntegerTy w ->
  getResultType mwrite 0 = Ok (MemRefTy shape (IntegerTy ew)) ->
  (verifyVectorWriteOp vwrite = Ok success <-> ew = w)
  /\ (verifyMemRefWriteOp mwrite = Ok success <-> ew = w).
Proof.
  intros Hv Htv Hwr Hmv Htmv Hmwr.
  split.
  - unfold verifyVectorWriteOp. unfold_accessors.
    cbn [bind]. rewrite Hv. cbn [bind]. rewrite Htv, Hwr.
    cbn [bind getIntOrFloatBitWidth cast_VectorType getElementType].
    destruct (N.eqb_spec ew w); cbn [negb];
      [split; [now intros _ | reflexivity] | split; [discriminate | contradiction]].
  - unfold verifyMemRefWriteOp. unfold_accessors.
    cbn [bind]. rewrite Hmv. cbn [bind]. rewrite Htmv, Hmwr.
    cbn [bind getIntOrFloatBitWidth cast_MemRefType getElementType].
    destruct (N.eqb_spec ew w); cbn [negb];
      [split; [now intros _ | reflexivity] | split; [discriminate | contradiction]].
Qed.

Lemma write_verifiers_ignore_shape_witness :
  (verifyVectorWriteOp
     (operation "btor.vector_write"
        [value "v" (IntegerTy 8); value "m" (VectorTy [3%Z; 5%Z] (IntegerTy 8));
         value "i" (IntegerTy 2)]
        [VectorTy [3%Z; 5%Z] (IntegerTy 8)] []) = Ok success <-> 8 = 8)
  /\ (verifyMemRefWriteOp
        (operation "btor.memref_write"
           [value "v" (IntegerTy 8); value "m" (MemRefTy [] (IntegerTy 8));
            value "i" (IntegerTy 2)]
           [MemRefTy [] (IntegerTy 8)] []) = Ok success <-> 8 = 8).
Proof.
  split.
  - apply (write_verifiers_ignore_shape
             (operation "btor.vector_write"
                [value "v" (IntegerTy 8);
                 value "m" (VectorTy [3%Z; 5%Z] (IntegerTy 8));
                 value "i" (IntegerTy 2)]
                [VectorTy [3%Z; 5%Z] (IntegerTy 8)] [])
             (operation "btor.memref_write"
                [value "v" (IntegerTy 8);
                 value "m" (MemRefTy [3%Z; 5%Z] (IntegerTy 8));
                 value "i" (IntegerTy 2)]
                [MemRefTy [3%Z; 5%Z] (IntegerTy 8)] [])
             (value "v" (IntegerTy 8)) (value "v" (IntegerTy 8)) 8 8 [3%Z; 5%Z]);
      reflexivity.
  - apply (write_verifiers_ignore_shape
             (operation "btor.vector_write"
                [value "v" (IntegerTy 8); value "m" (VectorTy [] (IntegerTy 8));
                 value "i" (IntegerTy 2)]
                [VectorTy [] (IntegerTy 8)] [])
             (operation "btor.memref_write"
                [value "v" (IntegerTy 8); value "m" (MemRefTy [] (IntegerTy 8));
                 value "i" (IntegerTy 2)]
                [MemRefTy [] (IntegerTy 8)] [])
             (value "v" (IntegerTy 8)) (value "v" (IntegerTy 8)) 8 8 []);
      reflexivity.
Defined.

(* ================================================================= *)
(** ** The text of the vector and memref init operations *)

(** X28. A [MemRefInitArrayOp] has no operand in its text: an operation
    without operands and with a memref result is read back from the text
    [printMemRefInitArrayOp] writes exactly as it was, and whatever text
    [parseMemRefInitArrayOp] accepts, the operation it builds has no operand
    and one result, of a memref type. *)
Theorem MemRefInitArrayOp_text :
  (forall (name : string) (shape : list Z) (e : Ty) (attrs : NamedAttrList)
          (sc : list (string * Ty)),
      exists text st,
        printMemRefInitArrayOp (operation name [] [MemRefTy shape e] attrs) = Ok text
        /\ parseMemRefInitArrayOp emptyState (parser text sc)
           = Some (st, parser [] sc)
        /\ create name st = operation name [] [MemRefTy shape e] attrs)
  /\ (forall (p p' : Parser) (st : OperationState),
         parseMemRefInitArrayOp emptyState p = Some (st, p') ->
         operands st = []
         /\ exists shape e, types st = [MemRefTy shape e]).
Proof.
  split.
  - intros name shape e attrs sc. eexists. eexists. split; [reflexivity|].
    destruct attrs as [|at1 attrs]; unfold_parsers; cbn; split; reflexivity.
  - intros p p' st Hparse. parse_steps Hparse. finish_parse Hparse.
    cbn. split; [reflexivity|]. do 2 eexists. reflexivity.
Qed.

Lemma MemRefInitArrayOp_text_witness :
  operands
    (operationState [] [MemRefTy [4%Z] (IntegerTy 8)] []) = []
  /\ exists shape e, [MemRefTy [4%Z] (IntegerTy 8)] = [MemRefTy shape e].
Proof.
  destruct MemRefInitArrayOp_text as [_ Hparsed].
  apply (Hparsed
           (parser [colon; type_token (MemRefTy [4%Z] (IntegerTy 8))] [])
           (parser [] [])
           (operationState [] [MemRefTy [4%Z] (IntegerTy 8)] [])).
  vm_compute. reflexivity.
Defined.

(** X29. A [VectorInitArrayOp] whose init value has the element type of its
    vector is read back from the text [printVectorInitArrayOp] writes
    exactly as it was; and whatever text [parseVectorInitArrayOp] accepts,
    the operation it builds never fails [verifyVectorInitArrayOp] on the
    element width: over integer elements the verifier can only turn it down
    for its shape. *)
Theorem VectorInitArrayOp_text :
  (forall (name : string) (i : Value) (shape : list Z) (e : Ty)
          (attrs : NamedAttrList) (sc : list (string * Ty)),
      getType i = e -> inScope sc i ->
      exists text st,
        printVectorInitArrayOp (operation name [i] [VectorTy shape e] attrs) = Ok text
        /\ parseVectorInitArrayOp emptyState (parser text sc)
           = Some (st, parser [] sc)
        /\ create name st = operation name [i] [VectorTy shape e] attrs)
  /\ (forall (name : string) (p p' : Parser) (st : OperationState)
             (shape : list Z) (w : N),
         parseVectorInitArrayOp emptyState p = Some (st, p') ->
         types st = [VectorTy shape (IntegerTy w)] ->
         verifyVectorInitArrayOp (create name st) = Ok success
         \/ verifyVectorInitArrayOp (create name st)
            = Ok (failure (rankDiagnostic (create name st)))
         \/ exists len,
              shape = [len]
              /\ verifyVectorInitArrayOp (create name st)
                 = Ok (failure (shapeDiagnostic (create name st) len))).
Proof.
  split.
  - intros name i shape e attrs sc Hi Si. open_values.
    eexists. eexists. split; [reflexivity|].
    destruct attrs as [|at1 attrs]; unfold_parsers; resolve_in_scope;
      split; reflexivity.
  - intros name p p' st shape w Hparse Htypes.
    parse_steps Hparse. finish_parse Hparse.
    cbn in Htypes. injection Htypes as -> ->.
    unfold verifyVectorInitArrayOp. unfold_accessors. cbn.
    rewrite N.eqb_refl. cbn.
    destruct shape as [|len [|len' shape]]; cbn.
    + right. left. reflexivity.
    + destruct (Z.land len (sub64 len 1) =? 0)%Z; cbn.
      * left. reflexivity.
      * right. right. exists len. split; reflexivity.
    + right. left. reflexivity.
Qed.

Lemma VectorInitArrayOp_text_witness :
  exists text st,
    printVectorInitArrayOp
      (operation "btor.vector_init_array" [value "v" (IntegerTy 8)]
         [VectorTy [4%Z] (IntegerTy 8)] []) = Ok text
    /\ parseVectorInitArrayOp emptyState (parser text [("v", IntegerTy 8)])
       = Some (st, parser [] [("v", IntegerTy 8)])
    /\ create "btor.vector_init_array" st
       = operation "btor.vector_init_array" [value "v" (IntegerTy 8)]
           [VectorTy [4%Z] (IntegerTy 8)] [].
Proof.
  destruct VectorInitArrayOp_text as [Hround _].
  apply (Hround "btor.vector_init_array" (value "v" (IntegerTy 8)) [4%Z]
           (IntegerTy 8) [] [("v", IntegerTy 8)]); reflexivity.
Defined.
